(** * Turbofan cycle solver (src/services/engineService.ts): model and properties

    The solver computes on JavaScript Numbers, i.e. IEEE 754 binary64 values.
    They are embedded as Rocq's primitive floats, whose [+], [-], [*], [/]
    and comparisons are the binary64 operations, NaN and signed zeros
    included; [Math.sqrt] is the binary64 square root.  [Math.pow], which is
    also the operator [**], and [Math.exp] are left
    implementation-approximated by ECMA-262; they are an interface of the
    model ([Math] below), so that a theorem holds for whatever the engine's
    library computes. *)

From Stdlib Require Import ZArith Floats List Bool String Sorted Lia.
Import ListNotations.
Set Warnings "-inexact-float".
Open Scope float_scope.

(** ** JavaScript Number operations *)

Notation "x >? y" := (PrimFloat.ltb y x) (at level 70, no associativity) : float_scope.
Notation "x >=? y" := (PrimFloat.leb y x) (at level 70, no associativity) : float_scope.

Definition isNaN (x : float) : bool := is_nan x.
Definition isFinite (x : float) : bool := is_finite x.

(** [Math.max] of two Numbers: NaN when either is NaN, and [+0] is larger
    than [-0]. *)
Definition Math_max (a b : float) : float :=
  if is_nan a || is_nan b then nan
  else if a <? b then b
  else if b <? a then a
  else if get_sign a then b else a.

Definition Math_sqrt (x : float) : float := PrimFloat.sqrt x.

Definition Math_abs (x : float) : float := PrimFloat.abs x.

(** The part of [Math] whose results the language leaves to the engine. *)
Class Math := {
  Math_pow : float -> float -> float;
  Math_exp : float -> float
}.

(** ** A reference [Math]

    An implementation of the interface, to run the model on concrete inputs.
    [exp] reduces its argument by multiples of ln 2 and sums the Taylor
    series; [ln] splits off the binary exponent and sums the series of the
    inverse hyperbolic tangent; [pow] has the exact cases of the language
    (exponents 0, NaN and the infinities, bases 0, 1 and the infinities,
    negative bases) and is [exp (y * ln x)] elsewhere, with the square and
    the identity exact.  It is an approximation, as every engine's is;
    no theorem over [Math] depends on it, only the runs on concrete inputs
    do. *)
Module RefMath.

Definition ln2 : float := 0.6931471805599453.
Definition magic : float := 6755399441055744.

(** The nearest integer, for a magnitude below 2^51. *)
Definition nearest (x : float) : float := (x + magic) - magic.

(** A finite [y] as [(n, s)] with [|y| = n / 2^s]. *)
Definition scaled (y : float) : Z * Z :=
  let (m, e) := Z.frexp (abs y) in
  (Uint63.to_Z (normfr_mantissa m), (53 - e)%Z).

Definition int_of (n : float) : Z :=
  let (mant, s) := scaled n in
  let k := Z.shiftr mant s in
  if n <? 0 then Z.opp k else k.

Definition of_int (e : Z) : float :=
  if (e <? 0)%Z then - of_uint63 (Uint63.of_Z (- e)) else of_uint63 (Uint63.of_Z e).

Definition is_integer (y : float) : bool :=
  let (mant, s) := scaled y in
  if (s <=? 0)%Z then true else (mant mod 2 ^ s =? 0)%Z.

Definition is_odd_integer (y : float) : bool :=
  let (mant, s) := scaled y in
  is_integer y && (if (s <? 0)%Z then false else Z.odd (Z.shiftr mant s)).

Fixpoint exp_series (n : nat) (k : float) (r : float) : float :=
  match n with
  | O => 1
  | S n' => 1 + (r / k) * exp_series n' (k + 1) r
  end.

Definition exp (y : float) : float :=
  if is_nan y then nan
  else if 710 <? y then infinity
  else if y <? (-746) then 0
  else
    let k := nearest (y / ln2) in
    let r := y - k * ln2 in
    Z.ldexp (exp_series 22 1 r) (int_of k).

Fixpoint atanh_series (n : nat) (d : float) (s2 : float) : float :=
  match n with
  | O => 1 / d
  | S n' => 1 / d + s2 * atanh_series n' (d + 2) s2
  end.

Definition ln (x : float) : float :=
  if is_nan x then nan
  else if x <? 0 then nan
  else if x =? 0 then neg_infinity
  else if x =? infinity then infinity
  else
    let (m, e) := Z.frexp x in
    let '(m, e) := if m <? 0.7071067811865476 then (m * 2, (e - 1)%Z) else (m, e) in
    let s := (m - 1) / (m + 1) in
    of_int e * ln2 + 2 * s * atanh_series 14 1 (s * s).

(** [a ^ y] for [a >= 0] and a finite [y] other than 0. *)
Definition pow_abs (a y : float) : float :=
  if y =? 1 then a
  else if y =? 2 then a * a
  else if a =? 1 then 1
  else if a =? 0 then (if y <? 0 then infinity else 0)
  else if a =? infinity then (if y <? 0 then 0 else infinity)
  else exp (y * ln a).

Definition pow (x y : float) : float :=
  if is_nan y then nan
  else if y =? 0 then 1
  else if is_nan x then nan
  else if is_infinity y then
    if abs x =? 1 then nan
    else if abs x <? 1 then (if y <? 0 then infinity else 0)
    else (if y <? 0 then 0 else infinity)
  else
    let r := pow_abs (abs x) y in
    if get_sign x then
      if is_odd_integer y then - r
      else if is_integer y || (x =? 0) || is_infinity x then r
      else nan
    else r.

Definition ref : Math := {| Math_pow := pow; Math_exp := exp |}.

End RefMath.

(** ** Data model (the repository's types module) *)

Module EngineInputs.
Record t := mk {
  altitude : float;
  mach : float;
  massFlow : float;
  bypassRatio : float;
  overallPressureRatio : float;
  fanPressureRatio : float;
  turbineEntryTemp : float;
  efficiencyFan : float;
  efficiencyLPC : float;
  efficiencyHPC : float;
  efficiencyHPT : float;
  efficiencyLPT : float;
  efficiencyBurner : float;
  pressureRecoveryInlet : float;
  pressureRecoveryBurner : float;
  pressureRecoveryNozzle : float;
  mechEfficiencyHigh : float;
  mechEfficiencyLow : float;
  heatingValue : float
}.

(** The object spreads [{ ...inputs, field: v }] of the sweep drivers. *)
Definition with_overallPressureRatio (i : t) (v : float) : t :=
  mk (altitude i) (mach i) (massFlow i) (bypassRatio i) v (fanPressureRatio i)
     (turbineEntryTemp i) (efficiencyFan i) (efficiencyLPC i) (efficiencyHPC i)
     (efficiencyHPT i) (efficiencyLPT i) (efficiencyBurner i)
     (pressureRecoveryInlet i) (pressureRecoveryBurner i) (pressureRecoveryNozzle i)
     (mechEfficiencyHigh i) (mechEfficiencyLow i) (heatingValue i).

Definition with_efficiencyLPC (i : t) (v : float) : t :=
  mk (altitude i) (mach i) (massFlow i) (bypassRatio i) (overallPressureRatio i)
     (fanPressureRatio i) (turbineEntryTemp i) (efficiencyFan i) v (efficiencyHPC i)
     (efficiencyHPT i) (efficiencyLPT i) (efficiencyBurner i)
     (pressureRecoveryInlet i) (pressureRecoveryBurner i) (pressureRecoveryNozzle i)
     (mechEfficiencyHigh i) (mechEfficiencyLow i) (heatingValue i).

Definition with_fanPressureRatio (i : t) (v : float) : t :=
  mk (altitude i) (mach i) (massFlow i) (bypassRatio i) (overallPressureRatio i) v
     (turbineEntryTemp i) (efficiencyFan i) (efficiencyLPC i) (efficiencyHPC i)
     (efficiencyHPT i) (efficiencyLPT i) (efficiencyBurner i)
     (pressureRecoveryInlet i) (pressureRecoveryBurner i) (pressureRecoveryNozzle i)
     (mechEfficiencyHigh i) (mechEfficiencyLow i) (heatingValue i).

Definition with_bypassRatio (i : t) (v : float) : t :=
  mk (altitude i) (mach i) (massFlow i) v (overallPressureRatio i)
     (fanPressureRatio i) (turbineEntryTemp i) (efficiencyFan i) (efficiencyLPC i)
     (efficiencyHPC i) (efficiencyHPT i) (efficiencyLPT i) (efficiencyBurner i)
     (pressureRecoveryInlet i) (pressureRecoveryBurner i) (pressureRecoveryNozzle i)
     (mechEfficiencyHigh i) (mechEfficiencyLow i) (heatingValue i).

Definition with_flight (i : t) (h m mf : float) : t :=
  mk h m mf (bypassRatio i) (overallPressureRatio i)
     (fanPressureRatio i) (turbineEntryTemp i) (efficiencyFan i) (efficiencyLPC i)
     (efficiencyHPC i) (efficiencyHPT i) (efficiencyLPT i) (efficiencyBurner i)
     (pressureRecoveryInlet i) (pressureRecoveryBurner i) (pressureRecoveryNozzle i)
     (mechEfficiencyHigh i) (mechEfficiencyLow i) (heatingValue i).
End EngineInputs.

Module StationResult.
Record t := mk {
  name : string;
  label : string;
  temp : float;
  pressure : float;
  isTotal : bool
}.
End StationResult.

Module PerformanceResult.
Record t := mk {
  thrust : float;
  specificThrust : float;
  sfc : float;
  massFlowRateAir : float;
  fuelAirRatio : float;
  bypassVelocity : float;
  coreVelocity : float;
  thermalEfficiency : float;
  propulsiveEfficiency : float;
  overallEfficiency : float;
  fanPressureRatio : float;
  hpcPressureRatio : float;
  isValid : bool
}.
End PerformanceResult.

Module CalculationResult.
Record t := mk {
  stations : list StationResult.t;
  performance : PerformanceResult.t
}.
End CalculationResult.

Module ChartPoint.
Record t := mk {
  opr : float;
  sfc : float;
  specificThrust : float
}.
End ChartPoint.

(** The points of the fan and bypass trends.  The types module at hand does
    not declare them; their fields are those of the object literals that
    [calculateFanTrends] and [calculateBypassTrends] push. *)
Module FanTrendPoint.
Record t := mk {
  fpr : float;
  sfc : float;
  specificThrust : float
}.
End FanTrendPoint.

Module BypassTrendPoint.
Record t := mk {
  bpr : float;
  sfc : float;
  specificThrust : float
}.
End BypassTrendPoint.

Module EnvelopePoint.
Record t := mk {
  mach : float;
  altitude : float;
  sfc : float;
  thrust : float;
  isValid : bool
}.
End EnvelopePoint.

(** ** Constants and helpers *)

Definition R_GAS : float := 287.05.
Definition G : float := 9.80665.

Record GasProps := { cp : float; k : float }.
Definition PROP_COLD : GasProps := {| cp := 1005; k := 1.4 |}.
Definition PROP_HOT : GasProps := {| cp := 1150; k := 1.33 |}.

Record Atmosphere := { atm_T0 : float; atm_P0 : float }.
Record InletConditions := { inlet_Tt2 : float; inlet_Pt2 : float }.

Definition getGammaExp (k : float) : float := k / (k - 1).

Section Solver.
Context {M : Math}.

Definition getAtmosphere (altitudeKm : float) : Atmosphere :=
  let H := altitudeKm * 1000 in
  if H <=? 11000 then
    {| atm_T0 := 288.15 - 0.0065 * H;
       atm_P0 := 101325 * Math_pow (1 - 0.0065 * H / 288.15) 5.25588 |}
  else
    let T11 := 216.65 in
    let P11 := 22632.1 in
    {| atm_T0 := T11;
       atm_P0 := P11 * Math_exp (- G * (H - 11000) / (R_GAS * T11)) |}.

Definition isentropicT (T_in pi k eta : float) (isCompressor : bool) : float :=
  let k_minus_1_over_k := (k - 1) / k in
  if isCompressor then
    T_in * (1 + (Math_pow pi k_minus_1_over_k - 1) / eta)
  else
    if pi <=? 0 then T_in
    else T_in * (1 - (1 - Math_pow (1 / pi) k_minus_1_over_k) * eta).

Definition getInletConditions (altitude mach recovery : float) : InletConditions :=
  let a := getAtmosphere altitude in
  let tau_r := 1 + (PROP_COLD.(k) - 1) / 2 * mach * mach in
  let pi_r := Math_pow tau_r (getGammaExp PROP_COLD.(k)) in
  {| inlet_Tt2 := a.(atm_T0) * tau_r;
     inlet_Pt2 := a.(atm_P0) * pi_r * recovery |}.

End Solver.

(** ** The cycle solver, [calculateCycle]

    The body is followed in its own order, a [let] per [const].  It is cut
    where the source cuts it: the gas path up to the low-pressure turbine
    (steps 1 to 7), the two nozzles (step 8), the performance figures (step
    9), and the clean-up with the returned object.  Each part hands the
    variables that are read later to the next one.  A variable that is
    assigned again ([isValid], [Pt45], [Pt5], the nozzle exit states, the
    figures) is rebound at each assignment. *)
Module Cycle.

(** The variables of steps 1 to 7 that are read afterwards; [isValid] is the
    flag as it stands after the low-pressure turbine. *)
Record GasPath := {
  T0 : float; P0 : float; V0 : float;
  Tt2 : float; Pt2 : float;
  Tt13 : float; Pt13 : float;
  pi_ch : float;
  Tt3 : float; Pt3 : float;
  Tt4 : float; Pt4 : float;
  Hu_J : float; f : float;
  Tt45 : float; Pt45 : float;
  Tt5 : float; Pt5 : float;
  isValid_HPT : bool;
  isValid_LPT : bool
}.

(** The exit state of a nozzle. *)
Record Exit := { exit_P : float; exit_T : float; exit_V : float }.

(** The six figures as they stand at the end of step 9. *)
Record Figures := {
  specific_thrust : float;
  total_thrust : float;
  sfc : float;
  thermalEfficiency : float;
  propulsiveEfficiency : float;
  overallEfficiency : float
}.

Section Steps.
Context {M : Math}.

Section GasPathOf.
Variable inputs : EngineInputs.t.

(** [const { altitude, mach, ... } = inputs] *)
Local Abbreviation altitude := (EngineInputs.altitude inputs).
Local Abbreviation mach := (EngineInputs.mach inputs).
Local Abbreviation bypassRatio := (EngineInputs.bypassRatio inputs).
Local Abbreviation overallPressureRatio := (EngineInputs.overallPressureRatio inputs).
Local Abbreviation fanPressureRatio := (EngineInputs.fanPressureRatio inputs).
Local Abbreviation turbineEntryTemp := (EngineInputs.turbineEntryTemp inputs).
Local Abbreviation efficiencyFan := (EngineInputs.efficiencyFan inputs).
Local Abbreviation efficiencyHPC := (EngineInputs.efficiencyHPC inputs).
Local Abbreviation efficiencyHPT := (EngineInputs.efficiencyHPT inputs).
Local Abbreviation efficiencyLPT := (EngineInputs.efficiencyLPT inputs).
Local Abbreviation efficiencyBurner := (EngineInputs.efficiencyBurner inputs).
Local Abbreviation pressureRecoveryInlet := (EngineInputs.pressureRecoveryInlet inputs).
Local Abbreviation pressureRecoveryBurner := (EngineInputs.pressureRecoveryBurner inputs).
Local Abbreviation mechEfficiencyHigh := (EngineInputs.mechEfficiencyHigh inputs).
Local Abbreviation mechEfficiencyLow := (EngineInputs.mechEfficiencyLow inputs).
Local Abbreviation heatingValue := (EngineInputs.heatingValue inputs).

Definition gas_path : GasPath :=
  (* 1. ambient (station 0) *)
  let T0 := (getAtmosphere altitude).(atm_T0) in
  let P0 := (getAtmosphere altitude).(atm_P0) in
  let V0 := mach * Math_sqrt (PROP_COLD.(k) * R_GAS * T0) in
  (* 2. inlet (0 -> 2) *)
  let tau_r := 1 + (PROP_COLD.(k) - 1) / 2 * mach * mach in
  let pi_r := Math_pow tau_r (getGammaExp PROP_COLD.(k)) in
  let Tt0 := T0 * tau_r in
  let Pt0 := P0 * pi_r in
  let Tt2 := Tt0 in
  let Pt2 := Pt0 * pressureRecoveryInlet in
  (* 3. fan (2 -> 13 bypass / 21 core) *)
  let Pt13 := Pt2 * fanPressureRatio in
  let Tt13 := isentropicT Tt2 fanPressureRatio PROP_COLD.(k) efficiencyFan true in
  let Pt21 := Pt13 in
  let Tt21 := Tt13 in
  (* 4. high-pressure compressor (21 -> 3) *)
  let pi_ch := Math_max 1.1 (overallPressureRatio / fanPressureRatio) in
  let Pt3 := Pt21 * pi_ch in
  let Tt3 := isentropicT Tt21 pi_ch PROP_COLD.(k) efficiencyHPC true in
  (* 5. burner (3 -> 4) *)
  let Pt4 := Pt3 * pressureRecoveryBurner in
  let Tt4 := turbineEntryTemp in
  let Hu_J := heatingValue * 1e6 in
  let numerator := PROP_HOT.(cp) * Tt4 - PROP_COLD.(cp) * Tt3 in
  let denominator := efficiencyBurner * Hu_J - PROP_HOT.(cp) * Tt4 in
  let f := Math_max 0 (numerator / denominator) in
  (* 6. high-pressure turbine (4 -> 4.5) *)
  let work_req_HPC := PROP_COLD.(cp) * (Tt3 - Tt21) in
  let work_avail_HPT := work_req_HPC / mechEfficiencyHigh in
  let deltaT_HPT := work_avail_HPT / ((1 + f) * PROP_HOT.(cp)) in
  let Tt45 := Tt4 - deltaT_HPT in
  let Pt45 := Pt4 in
  let isValid := true in
  let isValid := if Tt45 <? Tt3 then false else isValid in
  let temp_ratio_HPT := Tt45 / Tt4 in
  let hpt :=
    if (temp_ratio_HPT <=? 0) || (temp_ratio_HPT >=? 1) then (Pt45, false)
    else
      let pressure_term_HPT := (1 - temp_ratio_HPT) / efficiencyHPT in
      if pressure_term_HPT >=? 1 then (Pt45, false)
      else
        let pi_HPT := Math_pow (1 / (1 - pressure_term_HPT)) (getGammaExp PROP_HOT.(k)) in
        (Pt4 / pi_HPT, isValid) in
  let Pt45 := fst hpt in
  let isValid := snd hpt in
  let isValid_HPT := isValid in
  (* 7. low-pressure turbine (4.5 -> 5) *)
  let work_req_Fan := (1 + bypassRatio) * PROP_COLD.(cp) * (Tt13 - Tt2) in
  let work_extraction_LPT := work_req_Fan / mechEfficiencyLow in
  let deltaT_LPT := work_extraction_LPT / ((1 + f) * PROP_HOT.(cp)) in
  let Tt5 := Tt45 - deltaT_LPT in
  let Pt5 := Pt45 in
  let isValid := if Tt5 <? T0 then false else isValid in
  let temp_ratio_LPT := Tt5 / Tt45 in
  let lpt :=
    if (temp_ratio_LPT <=? 0) || (temp_ratio_LPT >=? 1) then (Pt5, false)
    else
      let pressure_term_LPT := (1 - temp_ratio_LPT) / efficiencyLPT in
      if pressure_term_LPT >=? 1 then (Pt5, false)
      else
        let pi_LPT := Math_pow (1 / (1 - pressure_term_LPT)) (getGammaExp PROP_HOT.(k)) in
        (Pt45 / pi_LPT, isValid) in
  let Pt5 := fst lpt in
  let isValid := snd lpt in
  {| T0 := T0; P0 := P0; V0 := V0; Tt2 := Tt2; Pt2 := Pt2;
     Tt13 := Tt13; Pt13 := Pt13; pi_ch := pi_ch; Tt3 := Tt3; Pt3 := Pt3;
     Tt4 := Tt4; Pt4 := Pt4; Hu_J := Hu_J; f := f;
     Tt45 := Tt45; Pt45 := Pt45; Tt5 := Tt5; Pt5 := Pt5;
     isValid_HPT := isValid_HPT; isValid_LPT := isValid |}.

End GasPathOf.

(** 8. core nozzle (9) *)
Definition Pt9 (inputs : EngineInputs.t) (g : GasPath) : float :=
  g.(Pt5) * EngineInputs.pressureRecoveryNozzle inputs.

Definition critical_ratio_hot : float :=
  Math_pow ((PROP_HOT.(k) + 1) / 2) (getGammaExp PROP_HOT.(k)).

(** [(P9, T9, V9)] and [isValid] after the core nozzle. *)
Definition core_nozzle (inputs : EngineInputs.t) (g : GasPath) : Exit * bool :=
  let P0 := g.(P0) in
  let Tt5 := g.(Tt5) in
  let isValid := g.(isValid_LPT) in
  let Pt9 := Pt9 inputs g in
  let P9 := P0 in
  let T9 := Tt5 in
  let V9 := 0 in
  if isValid then
    let critical_ratio_hot := critical_ratio_hot in
    if Pt9 / P0 >? critical_ratio_hot then
      let P9 := Pt9 / critical_ratio_hot in
      let T9 := Tt5 * (2 / (PROP_HOT.(k) + 1)) in
      let V9 := Math_sqrt (PROP_HOT.(k) * R_GAS * T9) in
      ({| exit_P := P9; exit_T := T9; exit_V := V9 |}, isValid)
    else
      let P9 := P0 in
      if Pt9 >? P0 then
        let T9 := Tt5 * Math_pow (P0 / Pt9) ((PROP_HOT.(k) - 1) / PROP_HOT.(k)) in
        let V9 := Math_sqrt (Math_max 0 (2 * PROP_HOT.(cp) * (Tt5 - T9))) in
        ({| exit_P := P9; exit_T := T9; exit_V := V9 |}, isValid)
      else
        ({| exit_P := P9; exit_T := T9; exit_V := V9 |}, false)
  else ({| exit_P := P9; exit_T := T9; exit_V := V9 |}, isValid).

(** bypass nozzle (19) *)
Definition Pt19 (inputs : EngineInputs.t) (g : GasPath) : float :=
  g.(Pt13) * EngineInputs.pressureRecoveryNozzle inputs.

Definition critical_ratio_cold : float :=
  Math_pow ((PROP_COLD.(k) + 1) / 2) (getGammaExp PROP_COLD.(k)).

(** [(P19, T19, V19)] and [isValid] after the bypass nozzle, [isValid]
    being the flag after the core nozzle. *)
Definition bypass_nozzle (inputs : EngineInputs.t) (g : GasPath) (isValid : bool)
    : Exit * bool :=
  let P0 := g.(P0) in
  let Tt13 := g.(Tt13) in
  let Pt19 := Pt19 inputs g in
  let P19 := P0 in
  let T19 := Tt13 in
  let V19 := 0 in
  if isValid then
    let critical_ratio_cold := critical_ratio_cold in
    if Pt19 / P0 >? critical_ratio_cold then
      let P19 := Pt19 / critical_ratio_cold in
      let T19 := Tt13 * (2 / (PROP_COLD.(k) + 1)) in
      let V19 := Math_sqrt (PROP_COLD.(k) * R_GAS * T19) in
      ({| exit_P := P19; exit_T := T19; exit_V := V19 |}, isValid)
    else
      let P19 := P0 in
      if Pt19 >? P0 then
        let T19 := Tt13 * Math_pow (P0 / Pt19) ((PROP_COLD.(k) - 1) / PROP_COLD.(k)) in
        let V19 := Math_sqrt (Math_max 0 (2 * PROP_COLD.(cp) * (Tt13 - T19))) in
        ({| exit_P := P19; exit_T := T19; exit_V := V19 |}, isValid)
      else
        ({| exit_P := P19; exit_T := T19; exit_V := V19 |}, isValid)
  else ({| exit_P := P19; exit_T := T19; exit_V := V19 |}, isValid).

(** 9. performance: the figures before the clean-up, for the exit states
    [e9] and [e19] of the nozzles and the flag after them. *)
Definition figures (inputs : EngineInputs.t) (g : GasPath) (e9 e19 : Exit)
    (isValid : bool) : Figures :=
  let massFlow := EngineInputs.massFlow inputs in
  let bypassRatio := EngineInputs.bypassRatio inputs in
  let P0 := g.(P0) in
  let V0 := g.(V0) in
  let f := g.(f) in
  let Hu_J := g.(Hu_J) in
  let P9 := e9.(exit_P) in
  let T9 := e9.(exit_T) in
  let V9 := e9.(exit_V) in
  let P19 := e19.(exit_P) in
  let T19 := e19.(exit_T) in
  let V19 := e19.(exit_V) in
  let specific_thrust := 0 in
  let total_thrust := 0 in
  let sfc := 0 in
  let thermalEfficiency := 0 in
  let propulsiveEfficiency := 0 in
  let overallEfficiency := 0 in
  if isValid then
    let rho9 := P9 / (R_GAS * T9) in
    let A9_per_unit := (1 + f) / (rho9 * V9) in
    let F_core := (1 + f) * V9 - 1 * V0 + (P9 - P0) * A9_per_unit in
    let rho19 := P19 / (R_GAS * T19) in
    let A19_per_unit := bypassRatio / (rho19 * V19) in
    let F_bypass := bypassRatio * V19 - bypassRatio * V0 + (P19 - P0) * A19_per_unit in
    let specific_thrust := (F_core + F_bypass) / (1 + bypassRatio) in
    let total_thrust := specific_thrust * massFlow in
    let sfc :=
      if total_thrust >? 0 then
        let m_fuel := f * (massFlow / (1 + bypassRatio)) in
        (m_fuel * 3600) / total_thrust
      else sfc in
    let V9_eff :=
      if (V9 >? 1) && (rho9 >? 0) then V9 + (P9 - P0) / (rho9 * V9) else V9 in
    let V19_eff :=
      if (V19 >? 1) && (rho19 >? 0) then V19 + (P19 - P0) / (rho19 * V19) else V19 in
    let m_core_abs := massFlow / (1 + bypassRatio) in
    let KE_out_eff :=
      0.5 * m_core_abs * (1 + f) * Math_pow V9_eff 2
      + 0.5 * (massFlow - m_core_abs) * Math_pow V19_eff 2 in
    let KE_in := 0.5 * massFlow * Math_pow V0 2 in
    let Q_in := m_core_abs * f * Hu_J in
    let thermalEfficiency :=
      if Q_in >? 0 then (KE_out_eff - KE_in) / Q_in else thermalEfficiency in
    let propulsiveEfficiency :=
      if Q_in >? 0 then
        if KE_out_eff - KE_in >? 0 then (total_thrust * V0) / (KE_out_eff - KE_in)
        else propulsiveEfficiency
      else propulsiveEfficiency in
    let overallEfficiency := thermalEfficiency * propulsiveEfficiency in
    {| specific_thrust := specific_thrust;
       total_thrust := total_thrust;
       sfc := sfc;
       thermalEfficiency := thermalEfficiency;
       propulsiveEfficiency := propulsiveEfficiency;
       overallEfficiency := overallEfficiency |}
  else
    {| specific_thrust := specific_thrust;
       total_thrust := total_thrust;
       sfc := sfc;
       thermalEfficiency := thermalEfficiency;
       propulsiveEfficiency := propulsiveEfficiency;
       overallEfficiency := overallEfficiency |}.

(** The clean-up of one figure: [if (isNaN(x) || !isFinite(x)) x = 0]. *)
Definition sanitize (x : float) : float :=
  if isNaN x || negb (isFinite x) then 0 else x.

(** The final clamp: [if (propulsiveEfficiency > 1.0) propulsiveEfficiency = 0.999]. *)
Definition clamp_propulsive (x : float) : float :=
  if x >? 1.0 then 0.999 else x.

End Steps.
End Cycle.

Section CalculateCycle.
Context {M : Math}.

Definition calculateCycle (inputs : EngineInputs.t) : CalculationResult.t :=
  let g := Cycle.gas_path inputs in
  let core := Cycle.core_nozzle inputs g in
  let e9 := fst core in
  let isValid := snd core in
  let bypass := Cycle.bypass_nozzle inputs g isValid in
  let e19 := fst bypass in
  let isValid := snd bypass in
  let fig := Cycle.figures inputs g e9 e19 isValid in
  let specific_thrust := Cycle.sanitize fig.(Cycle.specific_thrust) in
  let total_thrust := Cycle.sanitize fig.(Cycle.total_thrust) in
  let sfc := Cycle.sanitize fig.(Cycle.sfc) in
  let propulsiveEfficiency := Cycle.clamp_propulsive fig.(Cycle.propulsiveEfficiency) in
  {| CalculationResult.stations :=
       [ StationResult.mk "环境 (Ambient)" "0" g.(Cycle.T0) g.(Cycle.P0) false;
         StationResult.mk "进气道出口 (Inlet)" "2" g.(Cycle.Tt2) g.(Cycle.Pt2) true;
         StationResult.mk "风扇出口 (Fan)" "2.5" g.(Cycle.Tt13) g.(Cycle.Pt13) true;
         StationResult.mk "高压压气机出口 (HPC)" "3" g.(Cycle.Tt3) g.(Cycle.Pt3) true;
         StationResult.mk "燃烧室出口 (Burner)" "4" g.(Cycle.Tt4) g.(Cycle.Pt4) true;
         StationResult.mk "高压涡轮出口 (HPT)" "4.5" g.(Cycle.Tt45) g.(Cycle.Pt45) true;
         StationResult.mk "低压涡轮出口 (LPT)" "5" g.(Cycle.Tt5) g.(Cycle.Pt5) true;
         StationResult.mk "核心喷管 (Core Nozzle)" "9" e9.(Cycle.exit_T) e9.(Cycle.exit_P) false;
         StationResult.mk "外涵喷管 (Bypass Nozzle)" "19" e19.(Cycle.exit_T) e19.(Cycle.exit_P) false ];
     CalculationResult.performance :=
       {| PerformanceResult.thrust := total_thrust;
          PerformanceResult.specificThrust := specific_thrust;
          PerformanceResult.sfc := sfc;
          PerformanceResult.massFlowRateAir := EngineInputs.massFlow inputs;
          PerformanceResult.fuelAirRatio := g.(Cycle.f);
          PerformanceResult.bypassVelocity := e19.(Cycle.exit_V);
          PerformanceResult.coreVelocity := e9.(Cycle.exit_V);
          PerformanceResult.thermalEfficiency := fig.(Cycle.thermalEfficiency);
          PerformanceResult.propulsiveEfficiency := propulsiveEfficiency;
          PerformanceResult.overallEfficiency := fig.(Cycle.overallEfficiency);
          PerformanceResult.fanPressureRatio := EngineInputs.fanPressureRatio inputs;
          PerformanceResult.hpcPressureRatio := g.(Cycle.pi_ch);
          PerformanceResult.isValid := isValid |} |}.

End CalculateCycle.

(** ** Sweep drivers

    The [for] loops count in Numbers; a loop is a function of its counter
    and of the array built so far, with [fuel] bounding the number of tests
    of the loop condition ([None] when it runs out). *)
Section Sweeps.
Context {M : Math}.

(** [calculateTrends]: [for (let opr = 10; opr <= 60; opr += 1.0)]. *)
Fixpoint calculateTrends_loop (fuel : nat) (baseInputs : EngineInputs.t)
    (opr : float) (points : list ChartPoint.t) : option (list ChartPoint.t) :=
  match fuel with
  | O => None
  | S fuel' =>
    if opr <=? 60 then
      if opr <=? EngineInputs.fanPressureRatio baseInputs then
        calculateTrends_loop fuel' baseInputs (opr + 1.0) points
      else
        let res := calculateCycle (EngineInputs.with_overallPressureRatio baseInputs opr) in
        let perf := CalculationResult.performance res in
        let points :=
          if PerformanceResult.isValid perf && (PerformanceResult.specificThrust perf >? 0)
          then points ++ [ {| ChartPoint.opr := opr;
                              ChartPoint.sfc := PerformanceResult.sfc perf;
                              ChartPoint.specificThrust := PerformanceResult.specificThrust perf |} ]
          else points in
        calculateTrends_loop fuel' baseInputs (opr + 1.0) points
    else Some points
  end.

Definition calculateTrends_fuel : nat := 52.

Definition calculateTrends (baseInputs : EngineInputs.t) : option (list ChartPoint.t) :=
  calculateTrends_loop calculateTrends_fuel baseInputs 10 [].

(** [calculateFanTrends]: [for (let fpr = 1.1; fpr <= 4.0; fpr += 0.1)]. *)
Fixpoint calculateFanTrends_loop (fuel : nat) (baseInputs : EngineInputs.t)
    (fpr : float) (points : list FanTrendPoint.t) : option (list FanTrendPoint.t) :=
  match fuel with
  | O => None
  | S fuel' =>
    if fpr <=? 4.0 then
      if fpr >=? EngineInputs.overallPressureRatio baseInputs then
        calculateFanTrends_loop fuel' baseInputs (fpr + 0.1) points
      else
        let res := calculateCycle (EngineInputs.with_fanPressureRatio baseInputs fpr) in
        let perf := CalculationResult.performance res in
        let points :=
          if PerformanceResult.isValid perf && (PerformanceResult.specificThrust perf >? 0)
          then points ++ [ {| FanTrendPoint.fpr := fpr;
                              FanTrendPoint.sfc := PerformanceResult.sfc perf;
                              FanTrendPoint.specificThrust := PerformanceResult.specificThrust perf |} ]
          else points in
        calculateFanTrends_loop fuel' baseInputs (fpr + 0.1) points
    else Some points
  end.

Definition calculateFanTrends_fuel : nat := 32.

Definition calculateFanTrends (baseInputs : EngineInputs.t) : option (list FanTrendPoint.t) :=
  calculateFanTrends_loop calculateFanTrends_fuel baseInputs 1.1 [].

(** [calculateBypassTrends]: [for (let bpr = 0.2; bpr <= 15.0; bpr += 0.1)]. *)
Fixpoint calculateBypassTrends_loop (fuel : nat) (baseInputs : EngineInputs.t)
    (bpr : float) (points : list BypassTrendPoint.t) : option (list BypassTrendPoint.t) :=
  match fuel with
  | O => None
  | S fuel' =>
    if bpr <=? 15.0 then
      let res := calculateCycle (EngineInputs.with_bypassRatio baseInputs bpr) in
      let perf := CalculationResult.performance res in
      let points :=
        if PerformanceResult.isValid perf && (PerformanceResult.specificThrust perf >? 0)
        then points ++ [ {| BypassTrendPoint.bpr := bpr;
                            BypassTrendPoint.sfc := PerformanceResult.sfc perf;
                            BypassTrendPoint.specificThrust := PerformanceResult.specificThrust perf |} ]
        else points in
      calculateBypassTrends_loop fuel' baseInputs (bpr + 0.1) points
    else Some points
  end.

Definition calculateBypassTrends_fuel : nat := 160.

Definition calculateBypassTrends (baseInputs : EngineInputs.t)
    : option (list BypassTrendPoint.t) :=
  calculateBypassTrends_loop calculateBypassTrends_fuel baseInputs 0.2 [].

(** [calculateEnvelope] *)
Definition machSteps : float := 50.
Definition altSteps : float := 40.
Definition maxMach : float := 2.5.
Definition maxAlt : float := 20.

(** The body of the inner loop for Mach [m] and altitude index [j]. *)
Definition envelope_body (baseInputs : EngineInputs.t) (m j : float)
    (data : list EnvelopePoint.t) : list EnvelopePoint.t :=
  let designCorrectedFlow := EngineInputs.massFlow baseInputs in
  let h := (j / altSteps) * maxAlt in
  let ic := getInletConditions h m (EngineInputs.pressureRecoveryInlet baseInputs) in
  let theta := ic.(inlet_Tt2) / 288.15 in
  let delta := ic.(inlet_Pt2) / 101325 in
  let physicalMassFlow := designCorrectedFlow * (delta / Math_sqrt theta) in
  let inputs := EngineInputs.with_flight baseInputs h m physicalMassFlow in
  let res := calculateCycle inputs in
  let perf := CalculationResult.performance res in
  if PerformanceResult.isValid perf && (PerformanceResult.thrust perf >? 0)
  then data ++ [ {| EnvelopePoint.mach := m;
                    EnvelopePoint.altitude := h;
                    EnvelopePoint.sfc := PerformanceResult.sfc perf;
                    EnvelopePoint.thrust := PerformanceResult.thrust perf;
                    EnvelopePoint.isValid := true |} ]
  else data.

(** [for (let j = 0; j <= altSteps; j++)] *)
Fixpoint calculateEnvelope_inner (fuel : nat) (baseInputs : EngineInputs.t)
    (m j : float) (data : list EnvelopePoint.t) : option (list EnvelopePoint.t) :=
  match fuel with
  | O => None
  | S fuel' =>
    if j <=? altSteps then
      calculateEnvelope_inner fuel' baseInputs m (j + 1) (envelope_body baseInputs m j data)
    else Some data
  end.

Definition calculateEnvelope_fuel : nat := 52.

(** [for (let i = 0; i <= machSteps; i++)] *)
Fixpoint calculateEnvelope_outer (fuel : nat) (baseInputs : EngineInputs.t)
    (i : float) (data : list EnvelopePoint.t) : option (list EnvelopePoint.t) :=
  match fuel with
  | O => None
  | S fuel' =>
    if i <=? machSteps then
      let m := (i / machSteps) * maxMach in
      match calculateEnvelope_inner calculateEnvelope_fuel baseInputs m 0 data with
      | Some data => calculateEnvelope_outer fuel' baseInputs (i + 1) data
      | None => None
      end
    else Some data
  end.

Definition calculateEnvelope (baseInputs : EngineInputs.t) : option (list EnvelopePoint.t) :=
  calculateEnvelope_outer calculateEnvelope_fuel baseInputs 0 [].

End Sweeps.

(** ** The marker of the trend charts (src/components/PerformanceCharts.tsx)

    The component shows one of the three trends and marks on it the point
    closest to the current input, when that point is close enough.  [data]
    is the trend on display, [xKey] the field its points are plotted
    against, [currentVal] the input's value of that field. *)

Module PerformanceCharts.

(** [chartType]: ['opr' | 'fpr' | 'bpr']. *)
Inductive ChartType : Type := opr | fpr | bpr.

Section Marker.
Context {P : Type} (xKey : P -> float).

(** [o[xKey]] as a subtraction reads it, for a point or for the empty
    object [{}] (here [None]), whose field is [undefined]: NaN. *)
Definition key_of (o : option P) : float :=
  match o with
  | Some p => xKey p
  | None => nan
  end.

(** The callback of the [reduce]. *)
Definition closer (currentVal : float) (prev : option P) (curr : P) : option P :=
  if Math_abs (xKey curr - currentVal) <? Math_abs (key_of prev - currentVal)
  then Some curr else prev.

(** [data.reduce(..., data[0] || {})]: every point of [data] is visited,
    the first one included, from [data[0]] or the empty object. *)
Definition closestPoint (data : list P) (currentVal : float) : option P :=
  fold_left (closer currentVal) data (hd_error data).

(** [chartType === 'bpr' ? 1.0 : 0.5]. *)
Definition threshold (chartType : ChartType) : float :=
  match chartType with
  | bpr => 1.0
  | _ => 0.5
  end.

Definition showDots (chartType : ChartType) (data : list P) (currentVal : float) : bool :=
  (0 <? List.length data)%nat
  && (Math_abs (key_of (closestPoint data currentVal) - currentVal)
      <? threshold chartType).

End Marker.
End PerformanceCharts.

(** ** Inputs used as examples *)

(** The reference cruise point of the application. *)
Definition reference_cruise : EngineInputs.t :=
  {| EngineInputs.altitude := 10.7;
     EngineInputs.mach := 0.83;
     EngineInputs.massFlow := 1350;
     EngineInputs.bypassRatio := 9.0;
     EngineInputs.overallPressureRatio := 42.0;
     EngineInputs.fanPressureRatio := 1.65;
     EngineInputs.turbineEntryTemp := 1650;
     EngineInputs.efficiencyFan := 0.92;
     EngineInputs.efficiencyLPC := 0.90;
     EngineInputs.efficiencyHPC := 0.90;
     EngineInputs.efficiencyHPT := 0.92;
     EngineInputs.efficiencyLPT := 0.93;
     EngineInputs.efficiencyBurner := 0.995;
     EngineInputs.pressureRecoveryInlet := 0.98;
     EngineInputs.pressureRecoveryBurner := 0.96;
     EngineInputs.pressureRecoveryNozzle := 0.99;
     EngineInputs.mechEfficiencyHigh := 0.99;
     EngineInputs.mechEfficiencyLow := 0.99;
     EngineInputs.heatingValue := 43.1 |}.

(** The reference engine at Mach 2.085 with a turbine entry temperature of
    2000 K: the exhaust is barely faster than the flight. *)
Definition supersonic_dash : EngineInputs.t :=
  {| EngineInputs.altitude := 10.7;
     EngineInputs.mach := 2.085;
     EngineInputs.massFlow := 1350;
     EngineInputs.bypassRatio := 9.0;
     EngineInputs.overallPressureRatio := 42.0;
     EngineInputs.fanPressureRatio := 1.65;
     EngineInputs.turbineEntryTemp := 2000;
     EngineInputs.efficiencyFan := 0.92;
     EngineInputs.efficiencyLPC := 0.90;
     EngineInputs.efficiencyHPC := 0.90;
     EngineInputs.efficiencyHPT := 0.92;
     EngineInputs.efficiencyLPT := 0.93;
     EngineInputs.efficiencyBurner := 0.995;
     EngineInputs.pressureRecoveryInlet := 0.98;
     EngineInputs.pressureRecoveryBurner := 0.96;
     EngineInputs.pressureRecoveryNozzle := 0.99;
     EngineInputs.mechEfficiencyHigh := 0.99;
     EngineInputs.mechEfficiencyLow := 0.99;
     EngineInputs.heatingValue := 43.1 |}.

(** A high-bypass engine of low pressure ratio at sea level and Mach 2.2:
    the flight is faster than both exhausts. *)
Definition sea_level_mach_2_2 : EngineInputs.t :=
  {| EngineInputs.altitude := 0;
     EngineInputs.mach := 2.2;
     EngineInputs.massFlow := 1350;
     EngineInputs.bypassRatio := 12;
     EngineInputs.overallPressureRatio := 10;
     EngineInputs.fanPressureRatio := 1.3;
     EngineInputs.turbineEntryTemp := 1650;
     EngineInputs.efficiencyFan := 0.92;
     EngineInputs.efficiencyLPC := 0.90;
     EngineInputs.efficiencyHPC := 0.90;
     EngineInputs.efficiencyHPT := 0.92;
     EngineInputs.efficiencyLPT := 0.93;
     EngineInputs.efficiencyBurner := 0.995;
     EngineInputs.pressureRecoveryInlet := 0.98;
     EngineInputs.pressureRecoveryBurner := 0.96;
     EngineInputs.pressureRecoveryNozzle := 0.99;
     EngineInputs.mechEfficiencyHigh := 0.99;
     EngineInputs.mechEfficiencyLow := 0.99;
     EngineInputs.heatingValue := 43.1 |}.

(** The same with a negative mass flow, which the solver accepts. *)
Definition sea_level_mach_2_2_reversed : EngineInputs.t :=
  EngineInputs.with_flight sea_level_mach_2_2 0 2.2 (-1350).

(** The reference engine on the ground at rest, with the weakest fan (1.1)
    behind the lossiest inlet (0.8) the controls offer: the fan does not
    bring the bypass stream back to ambient pressure. *)
Definition static_weak_fan : EngineInputs.t :=
  {| EngineInputs.altitude := 0;
     EngineInputs.mach := 0;
     EngineInputs.massFlow := 1350;
     EngineInputs.bypassRatio := 9.0;
     EngineInputs.overallPressureRatio := 42.0;
     EngineInputs.fanPressureRatio := 1.1;
     EngineInputs.turbineEntryTemp := 1650;
     EngineInputs.efficiencyFan := 0.92;
     EngineInputs.efficiencyLPC := 0.90;
     EngineInputs.efficiencyHPC := 0.90;
     EngineInputs.efficiencyHPT := 0.92;
     EngineInputs.efficiencyLPT := 0.93;
     EngineInputs.efficiencyBurner := 0.995;
     EngineInputs.pressureRecoveryInlet := 0.8;
     EngineInputs.pressureRecoveryBurner := 0.96;
     EngineInputs.pressureRecoveryNozzle := 0.99;
     EngineInputs.mechEfficiencyHigh := 0.99;
     EngineInputs.mechEfficiencyLow := 0.99;
     EngineInputs.heatingValue := 43.1 |}.

(** A high-bypass engine of low pressure ratio at rest on the ground with a
    turbine entry temperature of 1200 K: driving the fan leaves the core
    stream below ambient pressure. *)
Definition overdrawn_core : EngineInputs.t :=
  {| EngineInputs.altitude := 0;
     EngineInputs.mach := 0;
     EngineInputs.massFlow := 1350;
     EngineInputs.bypassRatio := 12;
     EngineInputs.overallPressureRatio := 10;
     EngineInputs.fanPressureRatio := 1.3;
     EngineInputs.turbineEntryTemp := 1200;
     EngineInputs.efficiencyFan := 0.92;
     EngineInputs.efficiencyLPC := 0.90;
     EngineInputs.efficiencyHPC := 0.90;
     EngineInputs.efficiencyHPT := 0.92;
     EngineInputs.efficiencyLPT := 0.93;
     EngineInputs.efficiencyBurner := 0.995;
     EngineInputs.pressureRecoveryInlet := 0.98;
     EngineInputs.pressureRecoveryBurner := 0.96;
     EngineInputs.pressureRecoveryNozzle := 0.99;
     EngineInputs.mechEfficiencyHigh := 0.99;
     EngineInputs.mechEfficiencyLow := 0.99;
     EngineInputs.heatingValue := 43.1 |}.

(** The reference cruise point with a turbine entry temperature of 1000 K,
    too cold to drive the compressor. *)
Definition cold_turbine : EngineInputs.t :=
  {| EngineInputs.altitude := 10.7;
     EngineInputs.mach := 0.83;
     EngineInputs.massFlow := 1350;
     EngineInputs.bypassRatio := 9.0;
     EngineInputs.overallPressureRatio := 42.0;
     EngineInputs.fanPressureRatio := 1.65;
     EngineInputs.turbineEntryTemp := 1000;
     EngineInputs.efficiencyFan := 0.92;
     EngineInputs.efficiencyLPC := 0.90;
     EngineInputs.efficiencyHPC := 0.90;
     EngineInputs.efficiencyHPT := 0.92;
     EngineInputs.efficiencyLPT := 0.93;
     EngineInputs.efficiencyBurner := 0.995;
     EngineInputs.pressureRecoveryInlet := 0.98;
     EngineInputs.pressureRecoveryBurner := 0.96;
     EngineInputs.pressureRecoveryNozzle := 0.99;
     EngineInputs.mechEfficiencyHigh := 0.99;
     EngineInputs.mechEfficiencyLow := 0.99;
     EngineInputs.heatingValue := 43.1 |}.

(** A turbojet (no bypass) whose overall pressure ratio, 1, lies below its
    fan pressure ratio, 1.65. *)
Definition low_pressure_turbojet : EngineInputs.t :=
  {| EngineInputs.altitude := 0;
     EngineInputs.mach := 0;
     EngineInputs.massFlow := 1350;
     EngineInputs.bypassRatio := 0;
     EngineInputs.overallPressureRatio := 1;
     EngineInputs.fanPressureRatio := 1.65;
     EngineInputs.turbineEntryTemp := 1650;
     EngineInputs.efficiencyFan := 0.92;
     EngineInputs.efficiencyLPC := 0.90;
     EngineInputs.efficiencyHPC := 0.90;
     EngineInputs.efficiencyHPT := 0.92;
     EngineInputs.efficiencyLPT := 0.93;
     EngineInputs.efficiencyBurner := 0.995;
     EngineInputs.pressureRecoveryInlet := 0.98;
     EngineInputs.pressureRecoveryBurner := 0.96;
     EngineInputs.pressureRecoveryNozzle := 0.99;
     EngineInputs.mechEfficiencyHigh := 0.99;
     EngineInputs.mechEfficiencyLow := 0.99;
     EngineInputs.heatingValue := 43.1 |}.

(** The reference cruise point with an overall pressure ratio of 60 and a
    turbine entry temperature of 500 K: the compressor asks for more than
    the gas holds, and the temperatures behind both turbines come out
    negative. *)
Definition starved_turbines : EngineInputs.t :=
  {| EngineInputs.altitude := 10.7;
     EngineInputs.mach := 0.83;
     EngineInputs.massFlow := 1350;
     EngineInputs.bypassRatio := 9.0;
     EngineInputs.overallPressureRatio := 60;
     EngineInputs.fanPressureRatio := 1.65;
     EngineInputs.turbineEntryTemp := 500;
     EngineInputs.efficiencyFan := 0.92;
     EngineInputs.efficiencyLPC := 0.90;
     EngineInputs.efficiencyHPC := 0.90;
     EngineInputs.efficiencyHPT := 0.92;
     EngineInputs.efficiencyLPT := 0.93;
     EngineInputs.efficiencyBurner := 0.995;
     EngineInputs.pressureRecoveryInlet := 0.98;
     EngineInputs.pressureRecoveryBurner := 0.96;
     EngineInputs.pressureRecoveryNozzle := 0.99;
     EngineInputs.mechEfficiencyHigh := 0.99;
     EngineInputs.mechEfficiencyLow := 0.99;
     EngineInputs.heatingValue := 43.1 |}.

(** The reference engine at Mach 2.1 with a turbine entry temperature of
    2000 K: the propulsive efficiency comes out above 1 and is clamped. *)
Definition clamped_dash : EngineInputs.t :=
  {| EngineInputs.altitude := 10.7;
     EngineInputs.mach := 2.1;
     EngineInputs.massFlow := 1350;
     EngineInputs.bypassRatio := 9.0;
     EngineInputs.overallPressureRatio := 42.0;
     EngineInputs.fanPressureRatio := 1.65;
     EngineInputs.turbineEntryTemp := 2000;
     EngineInputs.efficiencyFan := 0.92;
     EngineInputs.efficiencyLPC := 0.90;
     EngineInputs.efficiencyHPC := 0.90;
     EngineInputs.efficiencyHPT := 0.92;
     EngineInputs.efficiencyLPT := 0.93;
     EngineInputs.efficiencyBurner := 0.995;
     EngineInputs.pressureRecoveryInlet := 0.98;
     EngineInputs.pressureRecoveryBurner := 0.96;
     EngineInputs.pressureRecoveryNozzle := 0.99;
     EngineInputs.mechEfficiencyHigh := 0.99;
     EngineInputs.mechEfficiencyLow := 0.99;
     EngineInputs.heatingValue := 43.1 |}.

(** [cold_turbine] with an overall pressure ratio of 1, below its fan
    pressure ratio: the compressor ratio is on the floor. *)
Definition cold_turbine_on_the_floor : EngineInputs.t :=
  EngineInputs.with_overallPressureRatio cold_turbine 1.

(** Two points of a trend over the overall pressure ratio. *)
Definition two_points : list ChartPoint.t :=
  [ {| ChartPoint.opr := 10; ChartPoint.sfc := 0.06; ChartPoint.specificThrust := 150 |};
    {| ChartPoint.opr := 11; ChartPoint.sfc := 0.05; ChartPoint.specificThrust := 160 |} ].

(** ** What the sweeps are said to compute

    The sweeps as the specification words them, to be compared with the
    loops above. *)

(** The values a counter takes in [for (x = lo; x <= hi; x += 1)]. *)
Fixpoint count_up (fuel : nat) (x hi : float) : option (list float) :=
  match fuel with
  | O => None
  | S fuel' =>
    if x <=? hi then option_map (cons x) (count_up fuel' (x + 1) hi)
    else Some []
  end.

(** The overall pressure ratios 10, 11, ..., 60. *)
Definition opr_sweep : list float :=
  [ 10; 11; 12; 13; 14; 15; 16; 17; 18; 19; 20; 21; 22; 23; 24; 25;
    26; 27; 28; 29; 30; 31; 32; 33; 34; 35; 36; 37; 38; 39; 40; 41;
    42; 43; 44; 45; 46; 47; 48; 49; 50; 51; 52; 53; 54; 55; 56; 57;
    58; 59; 60 ].

Definition float_of_nat (n : nat) : float := of_uint63 (Uint63.of_Z (Z.of_nat n)).

(** The indices 0, 1, ..., n - 1 as Numbers. *)
Definition indices (n : nat) : list float := map float_of_nat (seq 0 n).

(** The 51 Mach numbers and the 41 altitudes (km) of the envelope grid. *)
Definition mach_grid : list float := map (fun i => (i / 50) * 2.5) (indices 51).
Definition alt_grid : list float := map (fun j => (j / 40) * 20) (indices 41).

(** Every element is below every later one. *)
Fixpoint strictly_increasing (l : list float) : bool :=
  match l with
  | [] => true
  | x :: r => forallb (fun y => x <? y) r && strictly_increasing r
  end.

(** The values a counter takes in [for (x = lo; x <= hi; x += step)]. *)
Fixpoint count_by (fuel : nat) (x step hi : float) : option (list float) :=
  match fuel with
  | O => None
  | S fuel' =>
    if x <=? hi then option_map (cons x) (count_by fuel' (x + step) step hi)
    else Some []
  end.

(** The 29 fan pressure ratios that adding 0.1 to 1.1 reaches up to 4.0:
    the sums drift upwards, and the thirtieth, 4.000000000000003, is past
    the bound. *)
Definition fpr_sweep : list float :=
  [ 1.1; 1.2000000000000002; 1.3000000000000003; 1.4000000000000004;
    1.5000000000000004; 1.6000000000000005; 1.7000000000000006;
    1.8000000000000007; 1.9000000000000008; 2.000000000000001;
    2.100000000000001; 2.200000000000001; 2.300000000000001;
    2.4000000000000012; 2.5000000000000013; 2.6000000000000014;
    2.7000000000000015; 2.8000000000000016; 2.9000000000000017;
    3.0000000000000018; 3.100000000000002; 3.200000000000002;
    3.300000000000002; 3.400000000000002; 3.500000000000002;
    3.6000000000000023; 3.7000000000000024; 3.8000000000000025;
    3.9000000000000026 ].

(** The 149 bypass ratios that adding 0.1 to 0.2 reaches up to 15.0. *)
Definition bpr_sweep : list float :=
  [ 0.2; 0.30000000000000004; 0.4; 0.5; 0.6; 0.7; 0.7999999999999999;
    0.8999999999999999; 0.9999999999999999; 1.0999999999999999; 1.2; 1.3;
    1.4000000000000001; 1.5000000000000002; 1.6000000000000003;
    1.7000000000000004; 1.8000000000000005; 1.9000000000000006;
    2.0000000000000004; 2.1000000000000005; 2.2000000000000006;
    2.3000000000000007; 2.400000000000001; 2.500000000000001;
    2.600000000000001; 2.700000000000001; 2.800000000000001;
    2.9000000000000012; 3.0000000000000013; 3.1000000000000014;
    3.2000000000000015; 3.3000000000000016; 3.4000000000000017;
    3.5000000000000018; 3.600000000000002; 3.700000000000002;
    3.800000000000002; 3.900000000000002; 4.000000000000002;
    4.100000000000001; 4.200000000000001; 4.300000000000001; 4.4; 4.5;
    4.6; 4.699999999999999; 4.799999999999999; 4.899999999999999;
    4.999999999999998; 5.099999999999998; 5.1999999999999975;
    5.299999999999997; 5.399999999999997; 5.4999999999999964;
    5.599999999999996; 5.699999999999996; 5.799999999999995;
    5.899999999999995; 5.999999999999995; 6.099999999999994;
    6.199999999999994; 6.299999999999994; 6.399999999999993;
    6.499999999999993; 6.5999999999999925; 6.699999999999992;
    6.799999999999992; 6.8999999999999915; 6.999999999999991;
    7.099999999999991; 7.19999999999999; 7.29999999999999;
    7.39999999999999; 7.499999999999989; 7.599999999999989;
    7.699999999999989; 7.799999999999988; 7.899999999999988;
    7.999999999999988; 8.099999999999987; 8.199999999999987;
    8.299999999999986; 8.399999999999986; 8.499999999999986;
    8.599999999999985; 8.699999999999985; 8.799999999999985;
    8.899999999999984; 8.999999999999984; 9.099999999999984;
    9.199999999999983; 9.299999999999983; 9.399999999999983;
    9.499999999999982; 9.599999999999982; 9.699999999999982;
    9.799999999999981; 9.89999999999998; 9.99999999999998;
    10.09999999999998; 10.19999999999998; 10.29999999999998;
    10.399999999999979; 10.499999999999979; 10.599999999999978;
    10.699999999999978; 10.799999999999978; 10.899999999999977;
    10.999999999999977; 11.099999999999977; 11.199999999999976;
    11.299999999999976; 11.399999999999975; 11.499999999999975;
    11.599999999999975; 11.699999999999974; 11.799999999999974;
    11.899999999999974; 11.999999999999973; 12.099999999999973;
    12.199999999999973; 12.299999999999972; 12.399999999999972;
    12.499999999999972; 12.599999999999971; 12.69999999999997;
    12.79999999999997; 12.89999999999997; 12.99999999999997;
    13.09999999999997; 13.199999999999969; 13.299999999999969;
    13.399999999999968; 13.499999999999968; 13.599999999999968;
    13.699999999999967; 13.799999999999967; 13.899999999999967;
    13.999999999999966; 14.099999999999966; 14.199999999999966;
    14.299999999999965; 14.399999999999965; 14.499999999999964;
    14.599999999999964; 14.699999999999964; 14.799999999999963;
    14.899999999999963; 14.999999999999963 ].

Section SweepSpec.
Context {M : Math}.

(** What one fan pressure ratio contributes to the fan trend. *)
Definition fan_sample (baseInputs : EngineInputs.t) (fpr : float) : list FanTrendPoint.t :=
  if fpr >=? EngineInputs.overallPressureRatio baseInputs then []
  else
    let perf := CalculationResult.performance
                  (calculateCycle (EngineInputs.with_fanPressureRatio baseInputs fpr)) in
    if PerformanceResult.isValid perf && (PerformanceResult.specificThrust perf >? 0)
    then [ {| FanTrendPoint.fpr := fpr;
              FanTrendPoint.sfc := PerformanceResult.sfc perf;
              FanTrendPoint.specificThrust := PerformanceResult.specificThrust perf |} ]
    else [].

(** What one bypass ratio contributes to the bypass trend. *)
Definition bypass_sample (baseInputs : EngineInputs.t) (bpr : float)
    : list BypassTrendPoint.t :=
  let perf := CalculationResult.performance
                (calculateCycle (EngineInputs.with_bypassRatio baseInputs bpr)) in
  if PerformanceResult.isValid perf && (PerformanceResult.specificThrust perf >? 0)
  then [ {| BypassTrendPoint.bpr := bpr;
            BypassTrendPoint.sfc := PerformanceResult.sfc perf;
            BypassTrendPoint.specificThrust := PerformanceResult.specificThrust perf |} ]
  else [].

(** What one overall pressure ratio contributes to the trend: nothing when
    it is at most the base fan pressure ratio or when the solve is invalid
    or without positive specific thrust, else its point. *)
Definition trend_sample (baseInputs : EngineInputs.t) (opr : float) : list ChartPoint.t :=
  if opr <=? EngineInputs.fanPressureRatio baseInputs then []
  else
    let perf := CalculationResult.performance
                  (calculateCycle (EngineInputs.with_overallPressureRatio baseInputs opr)) in
    if PerformanceResult.isValid perf && (PerformanceResult.specificThrust perf >? 0)
    then [ {| ChartPoint.opr := opr;
              ChartPoint.sfc := PerformanceResult.sfc perf;
              ChartPoint.specificThrust := PerformanceResult.specificThrust perf |} ]
    else [].

(** What the cell of Mach [m] and altitude [h] contributes to the envelope:
    the solve at that flight condition with the mass flow scaled by
    [delta / sqrt theta], where [theta = Tt2 / 288.15] and
    [delta = Pt2 / 101325] for the inlet stagnation state of the cell; its
    point when the solve is valid with positive thrust. *)
Definition envelope_cell (baseInputs : EngineInputs.t) (m h : float) : list EnvelopePoint.t :=
  let cell := EngineInputs.with_flight baseInputs h m (EngineInputs.massFlow baseInputs) in
  let theta := Cycle.Tt2 (Cycle.gas_path cell) / 288.15 in
  let delta := Cycle.Pt2 (Cycle.gas_path cell) / 101325 in
  let massFlow := EngineInputs.massFlow baseInputs * (delta / Math_sqrt theta) in
  let perf := CalculationResult.performance
                (calculateCycle (EngineInputs.with_flight baseInputs h m massFlow)) in
  if PerformanceResult.isValid perf && (PerformanceResult.thrust perf >? 0)
  then [ {| EnvelopePoint.mach := m;
            EnvelopePoint.altitude := h;
            EnvelopePoint.sfc := PerformanceResult.sfc perf;
            EnvelopePoint.thrust := PerformanceResult.thrust perf;
            EnvelopePoint.isValid := true |} ]
  else [].

(** The grid in Mach-major order. *)
Definition envelope_grid (baseInputs : EngineInputs.t) : list EnvelopePoint.t :=
  flat_map (fun m => flat_map (fun h => envelope_cell baseInputs m h) alt_grid) mach_grid.

End SweepSpec.

(** ** Predicates of the statements *)

(** Signs.  [nonneg_or_nan x]: [x] is NaN, a zero of either sign, or
    positive.  [unsigned_or_nan x]: [x] is NaN or its sign bit is clear. *)
Definition nonneg_or_nan (x : float) : Prop :=
  match Prim2SF x with
  | S754_nan | S754_zero _ => True
  | S754_infinity s | S754_finite s _ _ => s = false
  end.

Definition unsigned_or_nan (x : float) : Prop :=
  match Prim2SF x with
  | S754_nan => True
  | S754_zero s | S754_infinity s | S754_finite s _ _ => s = false
  end.

(** [i1] and [i2] agree on every field but [efficiencyLPC]. *)
Definition differ_only_in_efficiencyLPC (i1 i2 : EngineInputs.t) : Prop :=
  EngineInputs.altitude i1 = EngineInputs.altitude i2 /\
  EngineInputs.mach i1 = EngineInputs.mach i2 /\
  EngineInputs.massFlow i1 = EngineInputs.massFlow i2 /\
  EngineInputs.bypassRatio i1 = EngineInputs.bypassRatio i2 /\
  EngineInputs.overallPressureRatio i1 = EngineInputs.overallPressureRatio i2 /\
  EngineInputs.fanPressureRatio i1 = EngineInputs.fanPressureRatio i2 /\
  EngineInputs.turbineEntryTemp i1 = EngineInputs.turbineEntryTemp i2 /\
  EngineInputs.efficiencyFan i1 = EngineInputs.efficiencyFan i2 /\
  EngineInputs.efficiencyHPC i1 = EngineInputs.efficiencyHPC i2 /\
  EngineInputs.efficiencyHPT i1 = EngineInputs.efficiencyHPT i2 /\
  EngineInputs.efficiencyLPT i1 = EngineInputs.efficiencyLPT i2 /\
  EngineInputs.efficiencyBurner i1 = EngineInputs.efficiencyBurner i2 /\
  EngineInputs.pressureRecoveryInlet i1 = EngineInputs.pressureRecoveryInlet i2 /\
  EngineInputs.pressureRecoveryBurner i1 = EngineInputs.pressureRecoveryBurner i2 /\
  EngineInputs.pressureRecoveryNozzle i1 = EngineInputs.pressureRecoveryNozzle i2 /\
  EngineInputs.mechEfficiencyHigh i1 = EngineInputs.mechEfficiencyHigh i2 /\
  EngineInputs.mechEfficiencyLow i1 = EngineInputs.mechEfficiencyLow i2 /\
  EngineInputs.heatingValue i1 = EngineInputs.heatingValue i2.

(** Two inputs that the gas path cannot tell apart: they agree on every
    field it reads but the overall pressure ratio, and give the same
    compressor ratio. *)
Definition same_gas_inputs (i1 i2 : EngineInputs.t) : Prop :=
  EngineInputs.altitude i1 = EngineInputs.altitude i2 /\
  EngineInputs.mach i1 = EngineInputs.mach i2 /\
  EngineInputs.bypassRatio i1 = EngineInputs.bypassRatio i2 /\
  EngineInputs.fanPressureRatio i1 = EngineInputs.fanPressureRatio i2 /\
  EngineInputs.turbineEntryTemp i1 = EngineInputs.turbineEntryTemp i2 /\
  EngineInputs.efficiencyFan i1 = EngineInputs.efficiencyFan i2 /\
  EngineInputs.efficiencyHPC i1 = EngineInputs.efficiencyHPC i2 /\
  EngineInputs.efficiencyHPT i1 = EngineInputs.efficiencyHPT i2 /\
  EngineInputs.efficiencyLPT i1 = EngineInputs.efficiencyLPT i2 /\
  EngineInputs.efficiencyBurner i1 = EngineInputs.efficiencyBurner i2 /\
  EngineInputs.pressureRecoveryInlet i1 = EngineInputs.pressureRecoveryInlet i2 /\
  EngineInputs.pressureRecoveryBurner i1 = EngineInputs.pressureRecoveryBurner i2 /\
  EngineInputs.mechEfficiencyHigh i1 = EngineInputs.mechEfficiencyHigh i2 /\
  EngineInputs.mechEfficiencyLow i1 = EngineInputs.mechEfficiencyLow i2 /\
  EngineInputs.heatingValue i1 = EngineInputs.heatingValue i2 /\
  Math_max 1.1 (EngineInputs.overallPressureRatio i1 / EngineInputs.fanPressureRatio i1)
  = Math_max 1.1 (EngineInputs.overallPressureRatio i2 / EngineInputs.fanPressureRatio i2).

(** [i1] and [i2] agree on the thirteen fields that no sweep overwrites: the
    turbine entry temperature, the efficiencies, the pressure recoveries and
    the heating value. *)
Definition same_component_data (i1 i2 : EngineInputs.t) : Prop :=
  EngineInputs.turbineEntryTemp i1 = EngineInputs.turbineEntryTemp i2 /\
  EngineInputs.efficiencyFan i1 = EngineInputs.efficiencyFan i2 /\
  EngineInputs.efficiencyLPC i1 = EngineInputs.efficiencyLPC i2 /\
  EngineInputs.efficiencyHPC i1 = EngineInputs.efficiencyHPC i2 /\
  EngineInputs.efficiencyHPT i1 = EngineInputs.efficiencyHPT i2 /\
  EngineInputs.efficiencyLPT i1 = EngineInputs.efficiencyLPT i2 /\
  EngineInputs.efficiencyBurner i1 = EngineInputs.efficiencyBurner i2 /\
  EngineInputs.pressureRecoveryInlet i1 = EngineInputs.pressureRecoveryInlet i2 /\
  EngineInputs.pressureRecoveryBurner i1 = EngineInputs.pressureRecoveryBurner i2 /\
  EngineInputs.pressureRecoveryNozzle i1 = EngineInputs.pressureRecoveryNozzle i2 /\
  EngineInputs.mechEfficiencyHigh i1 = EngineInputs.mechEfficiencyHigh i2 /\
  EngineInputs.mechEfficiencyLow i1 = EngineInputs.mechEfficiencyLow i2 /\
  EngineInputs.heatingValue i1 = EngineInputs.heatingValue i2.

Section ResultTerms.
Context {M : Math}.

(** The propulsive efficiency as step 9 leaves it, before the clamp. *)
Definition before_clamp (inputs : EngineInputs.t) : float :=
  let g := Cycle.gas_path inputs in
  let core := Cycle.core_nozzle inputs g in
  let bypass := Cycle.bypass_nozzle inputs g (snd core) in
  Cycle.propulsiveEfficiency
    (Cycle.figures inputs g (fst core) (fst bypass) (snd bypass)).

(** The tests of the two turbine stages, on the gas path [g] of [inputs]:
    the exit temperatures are not below the compressor exit and the ambient
    temperature, and in each stage the temperature ratio is neither [<= 0]
    nor [>= 1] and the pressure term is not [>= 1]. *)
Definition hpt_infeasible (inputs : EngineInputs.t) (g : Cycle.GasPath) : bool :=
  (Cycle.Tt45 g / Cycle.Tt4 g <=? 0) || (Cycle.Tt45 g / Cycle.Tt4 g >=? 1)
  || ((1 - Cycle.Tt45 g / Cycle.Tt4 g) / EngineInputs.efficiencyHPT inputs >=? 1).

Definition lpt_infeasible (inputs : EngineInputs.t) (g : Cycle.GasPath) : bool :=
  (Cycle.Tt5 g / Cycle.Tt45 g <=? 0) || (Cycle.Tt5 g / Cycle.Tt45 g >=? 1)
  || ((1 - Cycle.Tt5 g / Cycle.Tt45 g) / EngineInputs.efficiencyLPT inputs >=? 1).

Definition turbine_checks (inputs : EngineInputs.t) (g : Cycle.GasPath) : bool :=
  negb (Cycle.Tt45 g <? Cycle.Tt3 g) && negb (hpt_infeasible inputs g)
  && negb (Cycle.Tt5 g <? Cycle.T0 g) && negb (lpt_infeasible inputs g).

(** The core nozzle is choked or its total pressure exceeds the ambient
    pressure. *)
Definition core_expands (inputs : EngineInputs.t) (g : Cycle.GasPath) : bool :=
  (Cycle.Pt9 inputs g / Cycle.P0 g >? Cycle.critical_ratio_hot)
  || (Cycle.Pt9 inputs g >? Cycle.P0 g).

(** The stations of a result as (label, temperature, pressure). *)
Definition station_values (res : CalculationResult.t) : list (string * float * float) :=
  map (fun s => (StationResult.label s, StationResult.temp s, StationResult.pressure s))
    (CalculationResult.stations res).

End ResultTerms.

(** The distance from the current value that the chart's [reduce] compares,
    for a point or the empty object. *)
Definition marker_distance {P : Type} (xKey : P -> float) (currentVal : float)
    (o : option P) : float :=
  Math_abs (PerformanceCharts.key_of xKey o - currentVal).

(** * Properties *)

(** ** Binary64 order and signs

    Facts about the primitive operations, read off their specification over
    [spec_float]. *)
Section FloatFacts.

Lemma SFcompare_swap (a b : spec_float) :
  SFcompare b a = option_map CompOpp (SFcompare a b).
Proof.
  destruct a as [sa|sa| |sa ma ea], b as [sb|sb| |sb mb eb];
    try destruct sa; try destruct sb; simpl; try reflexivity;
    rewrite (Z.compare_antisym ea eb); destruct (ea ?= eb)%Z; simpl;
    try reflexivity;
    pose proof (Pos.compare_cont_antisym ma mb Eq) as H; simpl in H;
    now rewrite H.
Qed.

Lemma SFcompare_refl (a : spec_float) :
  a <> S754_nan -> SFcompare a a = Some Eq.
Proof.
  destruct a as [sa|sa| |sa ma ea]; try destruct sa; simpl; try congruence;
    intros _; rewrite Z.compare_refl;
    change (Pos.compare_cont Eq ma ma) with (Pos.compare ma ma);
    now rewrite Pos.compare_refl.
Qed.

Lemma SFcompare_nan_l (a b : spec_float) :
  SFcompare a b = None -> a = S754_nan \/ b = S754_nan.
Proof.
  destruct a as [sa|sa| |sa ma ea], b as [sb|sb| |sb mb eb];
    simpl; auto; discriminate.
Qed.

Lemma is_nan_spec (x : float) : is_nan x = true <-> Prim2SF x = S754_nan.
Proof.
  unfold is_nan. rewrite FloatAxioms.eqb_spec. unfold SFeqb. split.
  - intros H. destruct (Prim2SF x) as [s|s| |s m e] eqn:E; auto;
      rewrite SFcompare_refl in H by congruence; discriminate.
  - intros ->. reflexivity.
Qed.

Lemma is_nan_false (x : float) : is_nan x = false <-> Prim2SF x <> S754_nan.
Proof.
  rewrite <- is_nan_spec. destruct (is_nan x); split; congruence.
Qed.

Lemma ltb_compare (a b : float) :
  (a <? b) = true <-> SFcompare (Prim2SF a) (Prim2SF b) = Some Lt.
Proof.
  rewrite FloatAxioms.ltb_spec. unfold SFltb.
  destruct (SFcompare _ _) as [[]|]; split; congruence.
Qed.

Lemma leb_compare (a b : float) :
  (a <=? b) = true <->
  SFcompare (Prim2SF a) (Prim2SF b) = Some Lt \/
  SFcompare (Prim2SF a) (Prim2SF b) = Some Eq.
Proof.
  rewrite FloatAxioms.leb_spec. unfold SFleb.
  destruct (SFcompare _ _) as [[]|]; split; intros; auto; try discriminate;
    destruct H; discriminate.
Qed.

(** [a < b] excludes [b <= a]. *)
Lemma ltb_leb_false (a b : float) : (a <? b) = true -> (b <=? a) = false.
Proof.
  rewrite ltb_compare. intros H.
  destruct (b <=? a) eqn:E; auto.
  apply leb_compare in E. rewrite SFcompare_swap, H in E.
  destruct E; discriminate.
Qed.

(** [a < b] excludes [b < a]. *)
Lemma ltb_asym (a b : float) : (a <? b) = true -> (b <? a) = false.
Proof.
  rewrite ltb_compare. intros H.
  destruct (b <? a) eqn:E; auto.
  apply ltb_compare in E. rewrite SFcompare_swap, H in E. discriminate.
Qed.

(** Neither side of a comparison that holds is NaN. *)
Lemma ltb_not_nan (a b : float) :
  (a <? b) = true -> is_nan a = false /\ is_nan b = false.
Proof.
  rewrite ltb_compare, !is_nan_false. intros H.
  split; intros E; rewrite E in H; simpl in H;
    try discriminate; destruct (Prim2SF a); discriminate.
Qed.

(** When [a < b] fails, one of the two is NaN or [b <= a]. *)
Lemma ltb_false_cases (a b : float) :
  (a <? b) = false -> is_nan a = true \/ is_nan b = true \/ (b <=? a) = true.
Proof.
  intros H. rewrite !is_nan_spec, leb_compare, SFcompare_swap.
  destruct (SFcompare (Prim2SF a) (Prim2SF b)) as [[]|] eqn:E; simpl; auto.
  - apply ltb_compare in E. congruence.
  - apply SFcompare_nan_l in E. tauto.
Qed.

(** Rounding keeps the sign it is given. *)
Lemma binary_round_aux_sign (s : bool) (m e : Z) (l : location) :
  match binary_round_aux prec emax s m e l with
  | S754_nan => True
  | S754_zero s' | S754_infinity s' | S754_finite s' _ _ => s' = s
  end.
Proof.
  unfold binary_round_aux.
  destruct (shr_fexp prec emax m e l) as [mrs' e'].
  destruct (shr_fexp prec emax _ e' loc_Exact) as [mrs'' e''].
  destruct (shr_m mrs''); auto.
  destruct (Z.leb e'' (emax - prec)); auto.
Qed.

Lemma binary_round_sign (s : bool) (m : positive) (e : Z) :
  match binary_round prec emax s m e with
  | S754_nan => True
  | S754_zero s' | S754_infinity s' | S754_finite s' _ _ => s' = s
  end.
Proof.
  unfold binary_round.
  destruct (shl_align m e _) as [mz ez]. apply binary_round_aux_sign.
Qed.

Lemma unsigned_nonneg (x : float) : unsigned_or_nan x -> nonneg_or_nan x.
Proof.
  unfold unsigned_or_nan, nonneg_or_nan. destruct (Prim2SF x); auto.
Qed.

Lemma mul_nonneg (a b : float) :
  nonneg_or_nan a -> nonneg_or_nan b -> nonneg_or_nan (a * b).
Proof.
  unfold nonneg_or_nan. rewrite mul_spec. unfold SF64mul, SFmul.
  destruct (Prim2SF a) as [sa|sa| |sa ma ea], (Prim2SF b) as [sb|sb| |sb mb eb];
    intros Ha Hb; subst; auto.
  pose proof (binary_round_aux_sign (xorb false false) (Zpos (ma * mb)) (ea + eb) loc_Exact) as H.
  destruct (binary_round_aux _ _ _ _ _ _); auto.
Qed.

Lemma div_nonneg (a b : float) :
  nonneg_or_nan a -> unsigned_or_nan b -> nonneg_or_nan (a / b).
Proof.
  unfold nonneg_or_nan, unsigned_or_nan. rewrite div_spec. unfold SF64div, SFdiv.
  destruct (Prim2SF a) as [sa|sa| |sa ma ea], (Prim2SF b) as [sb|sb| |sb mb eb];
    intros Ha Hb; subst; auto.
  destruct (SFdiv_core_binary prec emax (Zpos ma) ea (Zpos mb) eb) as [[mz ez] lz].
  pose proof (binary_round_aux_sign (xorb false false) mz ez lz) as H.
  destruct (binary_round_aux _ _ _ _ _ _); auto.
Qed.

Lemma Prim2SF_one : Prim2SF 1 = S754_finite false 4503599627370496 (-52).
Proof. reflexivity. Qed.

Lemma Prim2SF_zero : Prim2SF 0 = S754_zero false.
Proof. reflexivity. Qed.

Lemma one_plus_unsigned (b : float) :
  nonneg_or_nan b -> unsigned_or_nan (1 + b).
Proof.
  unfold nonneg_or_nan, unsigned_or_nan. rewrite add_spec, Prim2SF_one.
  unfold SF64add, SFadd.
  destruct (Prim2SF b) as [sb|sb| |sb mb eb]; intros Hb; subst; auto.
  cbn [cond_Zopp].
  destruct (shl_align 4503599627370496 (-52) _) as [m1 e1].
  destruct (shl_align mb eb _) as [m2 e2].
  cbn [fst Z.add binary_normalize].
  apply binary_round_sign.
Qed.

Lemma leb_zero_nonneg (x : float) : (0 <=? x) = true -> nonneg_or_nan x.
Proof.
  rewrite leb_compare, Prim2SF_zero. unfold nonneg_or_nan.
  destruct (Prim2SF x) as [s|s| |s m e]; auto; simpl;
    destruct s; intros [H|H]; auto; discriminate.
Qed.

Lemma ltb_zero_unsigned (x : float) : (0 <? x) = true -> unsigned_or_nan x.
Proof.
  rewrite ltb_compare, Prim2SF_zero. unfold unsigned_or_nan.
  destruct (Prim2SF x) as [s|s| |s m e]; auto; simpl;
    destruct s; intros H; auto; discriminate.
Qed.

Lemma nonneg_nan : nonneg_or_nan nan.
Proof. exact I. Qed.

Lemma nonneg_zero : nonneg_or_nan 0.
Proof. exact I. Qed.

(** [Math.max(0, y)] is never negative. *)
Lemma Math_max_zero_nonneg (y : float) : nonneg_or_nan (Math_max 0 y).
Proof.
  unfold Math_max.
  destruct (is_nan 0 || is_nan y); [exact nonneg_nan|].
  destruct (0 <? y) eqn:E.
  - apply unsigned_nonneg, ltb_zero_unsigned, E.
  - destruct (y <? 0); [exact nonneg_zero|].
    change (get_sign 0) with false. exact nonneg_zero.
Qed.

(** A value that is not negative compares [0 <= x] unless it is NaN. *)
Lemma nonneg_leb (x : float) :
  nonneg_or_nan x -> is_nan x = false -> (0 <=? x) = true.
Proof.
  unfold nonneg_or_nan. rewrite is_nan_false, leb_compare, Prim2SF_zero.
  destruct (Prim2SF x) as [s|s| |s m e]; simpl; intros H N; subst; auto.
  congruence.
Qed.

Lemma eqb_compare (a b : float) :
  (a =? b) = true <-> SFcompare (Prim2SF a) (Prim2SF b) = Some Eq.
Proof.
  rewrite FloatAxioms.eqb_spec. unfold SFeqb.
  destruct (SFcompare _ _) as [[]|]; split; congruence.
Qed.

(** [Math.max] by cases on its arguments. *)
Lemma Math_max_above (a b : float) : (a <? b) = true -> Math_max a b = b.
Proof.
  intros H. unfold Math_max. destruct (ltb_not_nan _ _ H) as [-> ->].
  cbn [orb]. now rewrite H.
Qed.

Lemma Math_max_below (a b : float) : (b <? a) = true -> Math_max a b = a.
Proof.
  intros H. unfold Math_max. destruct (ltb_not_nan _ _ H) as [-> ->].
  cbn [orb]. now rewrite (ltb_asym _ _ H), H.
Qed.

Lemma Math_max_equal (a b : float) :
  (b =? a) = true -> get_sign a = false -> Math_max a b = a.
Proof.
  intros H S. apply eqb_compare in H.
  assert (Na : is_nan a = false).
  { apply is_nan_false. intros E. rewrite E in H.
    destruct (Prim2SF b); discriminate H. }
  assert (Nb : is_nan b = false).
  { apply is_nan_false. intros E. rewrite E in H. discriminate H. }
  assert (L1 : (b <? a) = false).
  { destruct (b <? a) eqn:L; [|reflexivity]. apply ltb_compare in L. congruence. }
  assert (L2 : (a <? b) = false).
  { destruct (a <? b) eqn:L; [|reflexivity]. apply ltb_compare in L.
    rewrite SFcompare_swap, H in L. discriminate L. }
  unfold Math_max. now rewrite Na, Nb, L1, L2, S.
Qed.

Lemma Math_max_nan_r (a b : float) :
  is_nan b = true -> is_nan (Math_max a b) = true.
Proof.
  intros N. unfold Math_max. rewrite N, orb_true_r. reflexivity.
Qed.

End FloatFacts.

(** ** The solver's result *)

(** Case analysis on every comparison of Numbers in the goal. *)
Ltac destruct_comparisons :=
  repeat match goal with
  | |- context [PrimFloat.ltb ?a ?b] => destruct (PrimFloat.ltb a b)
  | |- context [PrimFloat.leb ?a ?b] => destruct (PrimFloat.leb a b)
  end.

Section CycleFacts.
Context {M : Math}.

Lemma gas_path_ext (i1 i2 : EngineInputs.t) :
  same_gas_inputs i1 i2 -> Cycle.gas_path i1 = Cycle.gas_path i2.
Proof.
  unfold same_gas_inputs. intros H. decompose [and] H. clear H.
  unfold Cycle.gas_path.
  repeat match goal with E : _ = _ |- _ => rewrite E; clear E end.
  reflexivity.
Qed.
Lemma core_nozzle_ext (i1 i2 : EngineInputs.t) (g : Cycle.GasPath) :
  EngineInputs.pressureRecoveryNozzle i1 = EngineInputs.pressureRecoveryNozzle i2 ->
  Cycle.core_nozzle i1 g = Cycle.core_nozzle i2 g.
Proof.
  intros E. unfold Cycle.core_nozzle, Cycle.Pt9. now rewrite E.
Qed.

Lemma bypass_nozzle_ext (i1 i2 : EngineInputs.t) (g : Cycle.GasPath) (v : bool) :
  EngineInputs.pressureRecoveryNozzle i1 = EngineInputs.pressureRecoveryNozzle i2 ->
  Cycle.bypass_nozzle i1 g v = Cycle.bypass_nozzle i2 g v.
Proof.
  intros E. unfold Cycle.bypass_nozzle, Cycle.Pt19. now rewrite E.
Qed.

Lemma figures_ext (i1 i2 : EngineInputs.t) (g : Cycle.GasPath)
    (e9 e19 : Cycle.Exit) (v : bool) :
  EngineInputs.massFlow i1 = EngineInputs.massFlow i2 ->
  EngineInputs.bypassRatio i1 = EngineInputs.bypassRatio i2 ->
  Cycle.figures i1 g e9 e19 v = Cycle.figures i2 g e9 e19 v.
Proof.
  intros E1 E2. unfold Cycle.figures. now rewrite E1, E2.
Qed.

(** The result is a function of the fields the solver reads, and of the
    overall pressure ratio only through the compressor ratio. *)
Lemma calculateCycle_ext (i1 i2 : EngineInputs.t) :
  same_gas_inputs i1 i2 ->
  EngineInputs.massFlow i1 = EngineInputs.massFlow i2 ->
  EngineInputs.pressureRecoveryNozzle i1 = EngineInputs.pressureRecoveryNozzle i2 ->
  calculateCycle i1 = calculateCycle i2.
Proof.
  intros Hg Hm Hn.
  assert (Hb : EngineInputs.bypassRatio i1 = EngineInputs.bypassRatio i2)
    by (unfold same_gas_inputs in Hg; tauto).
  assert (Hf : EngineInputs.fanPressureRatio i1 = EngineInputs.fanPressureRatio i2)
    by (unfold same_gas_inputs in Hg; tauto).
  unfold calculateCycle. cbv zeta.
  rewrite (gas_path_ext _ _ Hg), Hm, Hf.
  rewrite !(core_nozzle_ext i1 i2 _ Hn).
  rewrite !(bypass_nozzle_ext i1 i2 _ _ Hn).
  rewrite !(figures_ext i1 i2 _ _ _ _ Hm Hb).
  reflexivity.
Qed.

(** C9. Two inputs that differ only in [efficiencyLPC] get the same result,
    every station and every performance field: the low-pressure-compressor
    efficiency is never read. *)
Theorem efficiencyLPC_has_no_influence (i1 i2 : EngineInputs.t) :
  differ_only_in_efficiencyLPC i1 i2 -> calculateCycle i1 = calculateCycle i2.
Proof.
  unfold differ_only_in_efficiencyLPC. intros H. decompose [and] H. clear H.
  apply calculateCycle_ext; try assumption.
  unfold same_gas_inputs. repeat split; congruence.
Qed.

(** C10. The air mass flow and the fan pressure ratio of the result are the
    inputs' own, whatever the validity flag says. *)
Theorem massFlow_and_fanPressureRatio_passed_through (inputs : EngineInputs.t) :
  let perf := CalculationResult.performance (calculateCycle inputs) in
  PerformanceResult.massFlowRateAir perf = EngineInputs.massFlow inputs /\
  PerformanceResult.fanPressureRatio perf = EngineInputs.fanPressureRatio inputs.
Proof.
  split; reflexivity.
Qed.

(** The flag that is returned is the one the bypass nozzle leaves. *)
Lemma calculateCycle_isValid (inputs : EngineInputs.t) :
  PerformanceResult.isValid (CalculationResult.performance (calculateCycle inputs))
  = snd (Cycle.bypass_nozzle inputs (Cycle.gas_path inputs)
           (snd (Cycle.core_nozzle inputs (Cycle.gas_path inputs)))).
Proof. reflexivity. Qed.

(** Without the flag the figures stay at their initial zeros. *)
Lemma figures_invalid (inputs : EngineInputs.t) (g : Cycle.GasPath)
    (e9 e19 : Cycle.Exit) :
  Cycle.figures inputs g e9 e19 false
  = {| Cycle.specific_thrust := 0; Cycle.total_thrust := 0; Cycle.sfc := 0;
       Cycle.thermalEfficiency := 0; Cycle.propulsiveEfficiency := 0;
       Cycle.overallEfficiency := 0 |}.
Proof. reflexivity. Qed.

(** C4. When the result is flagged invalid, thrust, specific thrust and SFC
    are exactly zero. *)
Theorem invalid_cycle_has_zero_figures (inputs : EngineInputs.t) :
  let perf := CalculationResult.performance (calculateCycle inputs) in
  PerformanceResult.isValid perf = false ->
  PerformanceResult.thrust perf = 0 /\
  PerformanceResult.specificThrust perf = 0 /\
  PerformanceResult.sfc perf = 0.
Proof.
  intros perf. subst perf. rewrite calculateCycle_isValid.
  unfold calculateCycle. cbv zeta.
  cbn [CalculationResult.performance PerformanceResult.thrust
       PerformanceResult.specificThrust PerformanceResult.sfc].
  intros ->. rewrite figures_invalid.
  repeat split; reflexivity.
Qed.

(** The efficiency that is returned is the clamped figure. *)
Lemma calculateCycle_propulsiveEfficiency (inputs : EngineInputs.t) :
  PerformanceResult.propulsiveEfficiency
    (CalculationResult.performance (calculateCycle inputs))
  = Cycle.clamp_propulsive (before_clamp inputs).
Proof.
  unfold calculateCycle, before_clamp. cbv zeta.
  cbn [CalculationResult.performance PerformanceResult.propulsiveEfficiency].
  reflexivity.
Qed.

Lemma clamp_propulsive_not_above_one (x : float) :
  (Cycle.clamp_propulsive x >? 1.0) = false.
Proof.
  unfold Cycle.clamp_propulsive. destruct (x >? 1.0) eqn:E.
  - reflexivity.
  - exact E.
Qed.

(** C2, as the code has it. The propulsive efficiency that is returned is
    never greater than 1.0: it is NaN or at most 1.0.  The clamp fires above
    1.0 only, so a value between 0.999 and 1.0 is returned as it is. *)
Theorem propulsiveEfficiency_not_above_one (inputs : EngineInputs.t) :
  let pe := PerformanceResult.propulsiveEfficiency
              (CalculationResult.performance (calculateCycle inputs)) in
  (pe >? 1.0) = false /\
  (is_nan pe = true \/ (pe <=? 1.0) = true) /\
  pe = (let x := before_clamp inputs in if x >? 1.0 then 0.999 else x).
Proof.
  intros pe. subst pe.
  rewrite calculateCycle_propulsiveEfficiency.
  pose proof (clamp_propulsive_not_above_one (before_clamp inputs)) as H.
  split; [exact H|]. split; [|reflexivity].
  destruct (ltb_false_cases _ _ H) as [N|[N|L]]; auto.
  discriminate N.
Qed.

(** *** Signs of the figures *)

Lemma gas_path_f_nonneg (inputs : EngineInputs.t) :
  nonneg_or_nan (Cycle.f (Cycle.gas_path inputs)).
Proof.
  assert (exists y, Cycle.f (Cycle.gas_path inputs) = Math_max 0 y) as [y ->]
    by (eexists; reflexivity).
  apply Math_max_zero_nonneg.
Qed.

Lemma sanitize_nonneg (x : float) :
  nonneg_or_nan x -> (Cycle.sanitize x >=? 0) = true.
Proof.
  intros H. unfold Cycle.sanitize, isNaN.
  destruct (is_nan x) eqn:N; [reflexivity|].
  destruct (negb (isFinite x)); [reflexivity|].
  now apply nonneg_leb.
Qed.

Lemma figures_sfc_nonneg (inputs : EngineInputs.t) (g : Cycle.GasPath)
    (e9 e19 : Cycle.Exit) (v : bool) :
  (EngineInputs.massFlow inputs >=? 0) = true ->
  (EngineInputs.bypassRatio inputs >=? 0) = true ->
  nonneg_or_nan (Cycle.f g) ->
  nonneg_or_nan (Cycle.sfc (Cycle.figures inputs g e9 e19 v)).
Proof.
  intros Hm Hb Hf. unfold Cycle.figures.
  destruct v; cbv zeta; cbn [Cycle.sfc]; [|exact nonneg_zero].
  match goal with |- nonneg_or_nan (if ?c then _ else _) => destruct c eqn:E end;
    [|exact nonneg_zero].
  apply div_nonneg; [|exact (ltb_zero_unsigned _ E)].
  apply mul_nonneg; [|now apply leb_zero_nonneg].
  apply mul_nonneg; [exact Hf|].
  apply div_nonneg.
  - now apply leb_zero_nonneg.
  - now apply one_plus_unsigned, leb_zero_nonneg.
Qed.

(** C3, as the code has it. For a mass flow and a bypass ratio that are not
    negative, the SFC of a valid result is not negative.  The net thrust is
    the cleaned product of the specific thrust before its clean-up and the
    mass flow; nothing keeps it from being negative. *)
Theorem sfc_nonneg_when_valid (inputs : EngineInputs.t) :
  (EngineInputs.massFlow inputs >=? 0) = true ->
  (EngineInputs.bypassRatio inputs >=? 0) = true ->
  let perf := CalculationResult.performance (calculateCycle inputs) in
  PerformanceResult.isValid perf = true ->
  (PerformanceResult.sfc perf >=? 0) = true /\
  exists st : float,
    PerformanceResult.specificThrust perf = Cycle.sanitize st /\
    PerformanceResult.thrust perf
    = Cycle.sanitize (st * EngineInputs.massFlow inputs).
Proof.
  intros Hm Hb perf. subst perf. rewrite calculateCycle_isValid. intros Hv. split.
  - unfold calculateCycle. cbv zeta.
    cbn [CalculationResult.performance PerformanceResult.sfc].
    apply sanitize_nonneg, figures_sfc_nonneg; auto using gas_path_f_nonneg.
  - unfold calculateCycle. cbv zeta.
    cbn [CalculationResult.performance PerformanceResult.specificThrust
         PerformanceResult.thrust].
    rewrite Hv. unfold Cycle.figures. cbv zeta.
    cbn [Cycle.specific_thrust Cycle.total_thrust].
    eexists. split; reflexivity.
Qed.

(** *** The nozzles *)

(** An unchoked core nozzle whose total pressure does not exceed the ambient
    pressure clears the flag. *)
Lemma core_nozzle_flags_no_expansion (inputs : EngineInputs.t) (g : Cycle.GasPath) :
  Cycle.isValid_LPT g = true ->
  (Cycle.Pt9 inputs g / Cycle.P0 g >? Cycle.critical_ratio_hot) = false ->
  (Cycle.Pt9 inputs g >? Cycle.P0 g) = false ->
  snd (Cycle.core_nozzle inputs g) = false.
Proof.
  intros Hv Hc Hp. unfold Cycle.core_nozzle. cbv zeta.
  rewrite Hv, Hc, Hp. reflexivity.
Qed.

(** The bypass nozzle has no assignment to the flag: it leaves as it came. *)
Lemma bypass_nozzle_keeps_flag (inputs : EngineInputs.t) (g : Cycle.GasPath) (v : bool) :
  snd (Cycle.bypass_nozzle inputs g v) = v.
Proof.
  unfold Cycle.bypass_nozzle. cbv zeta.
  destruct v; [|reflexivity].
  destruct (_ >? Cycle.critical_ratio_cold); [reflexivity|].
  destruct (_ >? _); reflexivity.
Qed.

(** C1, the core stream. A cycle that is feasible after the turbines, with
    an unchoked core nozzle whose total pressure does not exceed the ambient
    pressure, is returned invalid. *)
Lemma core_no_expansion_returned_invalid (inputs : EngineInputs.t) :
  let g := Cycle.gas_path inputs in
  Cycle.isValid_LPT g = true ->
  (Cycle.Pt9 inputs g / Cycle.P0 g >? Cycle.critical_ratio_hot) = false ->
  (Cycle.Pt9 inputs g >? Cycle.P0 g) = false ->
  PerformanceResult.isValid (CalculationResult.performance (calculateCycle inputs))
  = false.
Proof.
  intros g Hv Hc Hp.
  rewrite calculateCycle_isValid, bypass_nozzle_keeps_flag.
  now apply core_nozzle_flags_no_expansion.
Qed.

(** C1, the bypass stream. A cycle that is feasible after the core nozzle,
    with an unchoked bypass nozzle whose total pressure does not exceed the
    ambient pressure, is returned valid, with a bypass exit velocity of 0. *)
Theorem bypass_no_expansion_returned_valid (inputs : EngineInputs.t) :
  let g := Cycle.gas_path inputs in
  let perf := CalculationResult.performance (calculateCycle inputs) in
  snd (Cycle.core_nozzle inputs g) = true ->
  (Cycle.Pt19 inputs g / Cycle.P0 g >? Cycle.critical_ratio_cold) = false ->
  (Cycle.Pt19 inputs g >? Cycle.P0 g) = false ->
  PerformanceResult.isValid perf = true /\
  PerformanceResult.bypassVelocity perf = 0.
Proof.
  intros g perf Hv Hc Hp. subst perf. split.
  - rewrite calculateCycle_isValid, bypass_nozzle_keeps_flag. exact Hv.
  - unfold calculateCycle. cbv zeta.
    cbn [CalculationResult.performance PerformanceResult.bypassVelocity].
    fold g. rewrite Hv. unfold Cycle.bypass_nozzle. cbv zeta.
    rewrite Hc, Hp. reflexivity.
Qed.

(** *** The compressor ratio and the flag *)

Lemma isValid_LPT_checks (inputs : EngineInputs.t) :
  Cycle.isValid_LPT (Cycle.gas_path inputs)
  = turbine_checks inputs (Cycle.gas_path inputs).
Proof.
  unfold turbine_checks, hpt_infeasible, lpt_infeasible.
  lazy beta iota zeta delta [Cycle.gas_path Cycle.isValid_LPT Cycle.Tt45 Cycle.Tt3
                             Cycle.Tt4 Cycle.Tt5 Cycle.T0 fst snd].
  destruct_comparisons; reflexivity.
Qed.

Lemma core_nozzle_flag (inputs : EngineInputs.t) (g : Cycle.GasPath) :
  snd (Cycle.core_nozzle inputs g) = Cycle.isValid_LPT g && core_expands inputs g.
Proof.
  unfold Cycle.core_nozzle, core_expands. cbv zeta.
  destruct (Cycle.isValid_LPT g); [|reflexivity].
  destruct (_ >? Cycle.critical_ratio_hot); [reflexivity|].
  destruct (_ >? _); reflexivity.
Qed.

(** C6. The compressor ratio that is used and reported is
    [max(1.1, overall / fan)]: it gives the compressor exit state; it is the
    quotient when the quotient is above 1.1, it is 1.1 when the quotient is
    below or equal to 1.1, and NaN when the quotient is NaN.  The floor sets
    no flag: a result is invalid only when a test of the turbines or of the
    core nozzle fails, whether the floor is active or not.  The result,
    flag included, depends on the overall pressure ratio through this value
    only, so that an input below the floor is solved exactly as one on the
    floor. *)
Theorem hpcPressureRatio_floor (inputs : EngineInputs.t) :
  let r := EngineInputs.overallPressureRatio inputs
           / EngineInputs.fanPressureRatio inputs in
  let g := Cycle.gas_path inputs in
  PerformanceResult.hpcPressureRatio
    (CalculationResult.performance (calculateCycle inputs)) = Math_max 1.1 r /\
  Cycle.Pt3 g = Cycle.Pt13 g * Math_max 1.1 r /\
  Cycle.Tt3 g = isentropicT (Cycle.Tt13 g) (Math_max 1.1 r) PROP_COLD.(k)
                  (EngineInputs.efficiencyHPC inputs) true /\
  ((r <? 1.1) = true -> Math_max 1.1 r = 1.1) /\
  ((r =? 1.1) = true -> Math_max 1.1 r = 1.1) /\
  ((1.1 <? r) = true -> Math_max 1.1 r = r) /\
  (is_nan r = true -> is_nan (Math_max 1.1 r) = true) /\
  (PerformanceResult.isValid
     (CalculationResult.performance (calculateCycle inputs)) = false ->
   (Cycle.Tt45 g <? Cycle.Tt3 g) = true \/
   hpt_infeasible inputs g = true \/
   (Cycle.Tt5 g <? Cycle.T0 g) = true \/
   lpt_infeasible inputs g = true \/
   core_expands inputs g = false) /\
  (forall opr' : float,
      Math_max 1.1 (opr' / EngineInputs.fanPressureRatio inputs) = Math_max 1.1 r ->
      calculateCycle (EngineInputs.with_overallPressureRatio inputs opr')
      = calculateCycle inputs).
Proof.
  intros r g. subst r g.
  split; [reflexivity|]. split; [reflexivity|]. split; [reflexivity|].
  split; [apply Math_max_below|].
  split; [intros H; now apply Math_max_equal|].
  split; [apply Math_max_above|].
  split; [apply Math_max_nan_r|].
  split.
  - rewrite calculateCycle_isValid, bypass_nozzle_keeps_flag, core_nozzle_flag.
    rewrite isValid_LPT_checks. unfold turbine_checks.
    generalize (Cycle.Tt45 (Cycle.gas_path inputs) <? Cycle.Tt3 (Cycle.gas_path inputs)),
               (hpt_infeasible inputs (Cycle.gas_path inputs)),
               (Cycle.Tt5 (Cycle.gas_path inputs) <? Cycle.T0 (Cycle.gas_path inputs)),
               (lpt_infeasible inputs (Cycle.gas_path inputs)),
               (core_expands inputs (Cycle.gas_path inputs)).
    intros [] [] [] [] []; cbn [negb andb]; intros H; auto 10; discriminate H.
  - intros opr' H. apply calculateCycle_ext; try reflexivity.
    unfold same_gas_inputs. cbn. repeat split. exact H.
Qed.

End CycleFacts.

(** ** The atmosphere *)

(** C5. With [h] the altitude in metres, the atmosphere is
    [288.15 - 0.0065 h] and [101325 (1 - 0.0065 h / 288.15)^5.25588] up to
    11000 m, and 216.65 K and
    [22632.1 exp(-9.80665 (h - 11000) / (287.05 * 216.65))] above.  At
    altitude 0 the temperature is exactly 288.15 K, and the pressure is
    [101325 * Math.pow(1, 5.25588)]: exactly 101325 Pa for a [Math.pow] that
    gives 1 for the base 1. *)
Theorem getAtmosphere_layers (M : Math) :
  (forall altitudeKm : float,
      let h := altitudeKm * 1000 in
      ((h <=? 11000) = true ->
       getAtmosphere altitudeKm
       = {| atm_T0 := 288.15 - 0.0065 * h;
            atm_P0 := 101325 * Math_pow (1 - 0.0065 * h / 288.15) 5.25588 |}) /\
      ((h >? 11000) = true ->
       getAtmosphere altitudeKm
       = {| atm_T0 := 216.65;
            atm_P0 := 22632.1
                      * Math_exp (- 9.80665 * (h - 11000) / (287.05 * 216.65)) |})) /\
  atm_T0 (getAtmosphere 0) = 288.15 /\
  atm_P0 (getAtmosphere 0) = 101325 * Math_pow 1 5.25588 /\
  (Math_pow 1 5.25588 = 1 ->
   getAtmosphere 0 = {| atm_T0 := 288.15; atm_P0 := 101325 |}).
Proof.
  assert (Z : getAtmosphere 0
              = {| atm_T0 := 288.15; atm_P0 := 101325 * Math_pow 1 5.25588 |})
    by reflexivity.
  split; [|split; [|split]].
  - intros altitudeKm h. unfold getAtmosphere. fold h. split; intros H.
    + rewrite H. reflexivity.
    + rewrite (ltb_leb_false _ _ H). reflexivity.
  - now rewrite Z.
  - now rewrite Z.
  - intros Hpow. rewrite Z, Hpow. reflexivity.
Qed.

(** ** The sweeps *)

(** *** Lists built by a filtering loop *)
Section FlatMapFacts.
Context {A B : Type}.

Lemma flat_map_length_le (g : A -> list B) (n : nat) (l : list A) :
  (forall x, List.length (g x) <= n)%nat ->
  (List.length (flat_map g l) <= n * List.length l)%nat.
Proof.
  intros H. induction l as [|x l IH]; simpl.
  - lia.
  - rewrite length_app. specialize (H x). lia.
Qed.

(** A list of at most one keyed element per key of a sorted list of keys is
    sorted by its keys. *)
Lemma flat_map_sorted (R : A -> A -> Prop) (key : B -> A) (g : A -> list B)
    (l : list A) :
  (forall x p, In p (g x) -> key p = x) ->
  (forall x, List.length (g x) <= 1)%nat ->
  StronglySorted R l ->
  StronglySorted (fun p q => R (key p) (key q)) (flat_map g l).
Proof.
  intros Hkey Hlen Hs. induction Hs as [|x l Hs IH Hx]; simpl.
  - constructor.
  - pose proof (Hkey x) as Kx. pose proof (Hlen x) as Lx.
    destruct (g x) as [|p [|q r]]; simpl in *; [exact IH| |lia].
    constructor; [exact IH|].
    rewrite Forall_forall in *. intros q Hq.
    apply in_flat_map in Hq. destruct Hq as [y [Hy Hq]].
    rewrite (Kx p (or_introl eq_refl)), (Hkey y q Hq). now apply Hx.
Qed.

End FlatMapFacts.

Lemma strictly_increasing_sorted (l : list float) :
  strictly_increasing l = true ->
  StronglySorted (fun a b => (a <? b) = true) l.
Proof.
  induction l as [|x r IH]; simpl; intros H.
  - constructor.
  - apply andb_prop in H. destruct H as [H1 H2].
    constructor; [now apply IH|].
    rewrite forallb_forall in H1. now apply Forall_forall.
Qed.

(** A count that ends keeps its result with more fuel. *)
Lemma count_up_more_fuel (n m : nat) (x hi : float) (l : list float) :
  count_up n x hi = Some l -> (n <= m)%nat -> count_up m x hi = Some l.
Proof.
  revert m x l. induction n as [|n IH]; intros m x l H Hle; [discriminate|].
  destruct m as [|m]; [lia|].
  cbn [count_up] in *. destruct (x <=? hi); [|exact H].
  destruct (count_up n (x + 1) hi) as [r|] eqn:E; [|discriminate].
  rewrite (IH m _ _ E) by lia. exact H.
Qed.

Lemma count_up_opr_sweep : count_up 52 10 60 = Some opr_sweep.
Proof. vm_compute. reflexivity. Qed.

Lemma count_up_mach_indices : count_up 52 0 50 = Some (indices 51).
Proof. vm_compute. reflexivity. Qed.

Lemma count_up_alt_indices : count_up 52 0 40 = Some (indices 41).
Proof. vm_compute. reflexivity. Qed.

Lemma opr_sweep_increasing : strictly_increasing opr_sweep = true.
Proof. vm_compute. reflexivity. Qed.

Section SweepFacts.
Context {M : Math}.

(** *** The trend over the overall pressure ratio *)

Lemma calculateTrends_loop_spec (fuel : nat) (baseInputs : EngineInputs.t)
    (opr : float) (points : list ChartPoint.t) :
  calculateTrends_loop fuel baseInputs opr points
  = option_map (fun xs => points ++ flat_map (trend_sample baseInputs) xs)
      (count_up fuel opr 60).
Proof.
  revert opr points. induction fuel as [|fuel IH]; intros opr points.
  - reflexivity.
  - cbn [calculateTrends_loop count_up].
    destruct (opr <=? 60); [|cbn [option_map flat_map]; now rewrite app_nil_r].
    pose proof (eq_refl (trend_sample baseInputs opr)) as T.
    unfold trend_sample at 2 in T.
    destruct (opr <=? EngineInputs.fanPressureRatio baseInputs).
    + rewrite IH. destruct (count_up fuel (opr + 1) 60); [|reflexivity].
      cbn [option_map flat_map]. now rewrite T.
    + cbv zeta in *. rewrite IH.
      destruct (count_up fuel (opr + 1) 60) as [xs|]; [|reflexivity].
      cbn [option_map flat_map]. rewrite T.
      destruct (_ && _); [now rewrite <- app_assoc|reflexivity].
Qed.

(** The loop ends within the fuel it is given, and more changes nothing. *)
Lemma calculateTrends_enough_fuel (baseInputs : EngineInputs.t) (fuel : nat) :
  (calculateTrends_fuel <= fuel)%nat ->
  calculateTrends_loop fuel baseInputs 10 [] = calculateTrends baseInputs.
Proof.
  unfold calculateTrends, calculateTrends_fuel. intros H.
  rewrite !calculateTrends_loop_spec.
  now rewrite (count_up_more_fuel _ _ _ _ _ count_up_opr_sweep H), count_up_opr_sweep.
Qed.

Lemma trend_sample_length (baseInputs : EngineInputs.t) (opr : float) :
  (List.length (trend_sample baseInputs opr) <= 1)%nat.
Proof.
  unfold trend_sample. destruct (opr <=? _); [cbn [List.length]; lia|].
  cbv zeta. destruct (_ && _); cbn [List.length]; lia.
Qed.

Lemma trend_sample_In (baseInputs : EngineInputs.t) (opr : float) (p : ChartPoint.t) :
  In p (trend_sample baseInputs opr) ->
  ChartPoint.opr p = opr /\
  (opr <=? EngineInputs.fanPressureRatio baseInputs) = false /\
  let perf := CalculationResult.performance
                (calculateCycle (EngineInputs.with_overallPressureRatio baseInputs opr)) in
  PerformanceResult.isValid perf = true /\
  (PerformanceResult.specificThrust perf >? 0) = true /\
  ChartPoint.sfc p = PerformanceResult.sfc perf /\
  ChartPoint.specificThrust p = PerformanceResult.specificThrust perf.
Proof.
  unfold trend_sample. destruct (opr <=? _); [intros []|].
  cbv zeta. destruct (_ && _) eqn:E; [|intros []].
  apply andb_prop in E. destruct E as [E1 E2].
  intros [<-|[]].
  cbn [ChartPoint.opr ChartPoint.sfc ChartPoint.specificThrust].
  repeat split; assumption.
Qed.

(** C7. The trend visits the overall pressure ratios 10, 11, ..., 60 in
    this order and keeps, for each one above the base fan pressure ratio
    whose solve is valid with positive specific thrust, its point; no point
    has an overall pressure ratio at or below the base fan pressure ratio,
    and the ratios of the points increase strictly.  The input of each solve
    has the overall pressure ratio of the sweep and the base value in every
    other field. *)
Theorem calculateTrends_sweep (baseInputs : EngineInputs.t) :
  exists points : list ChartPoint.t,
    calculateTrends baseInputs = Some points /\
    points = flat_map (trend_sample baseInputs) opr_sweep /\
    (forall p, In p points ->
       In (ChartPoint.opr p) opr_sweep /\
       (ChartPoint.opr p <=? EngineInputs.fanPressureRatio baseInputs) = false /\
       let perf := CalculationResult.performance
                     (calculateCycle (EngineInputs.with_overallPressureRatio
                                        baseInputs (ChartPoint.opr p))) in
       PerformanceResult.isValid perf = true /\
       (PerformanceResult.specificThrust perf >? 0) = true /\
       ChartPoint.sfc p = PerformanceResult.sfc perf /\
       ChartPoint.specificThrust p = PerformanceResult.specificThrust perf) /\
    StronglySorted (fun p q => (ChartPoint.opr p <? ChartPoint.opr q) = true) points /\
    (forall opr : float,
       let inputs := EngineInputs.with_overallPressureRatio baseInputs opr in
       EngineInputs.overallPressureRatio inputs = opr /\
       EngineInputs.altitude inputs = EngineInputs.altitude baseInputs /\
       EngineInputs.mach inputs = EngineInputs.mach baseInputs /\
       EngineInputs.massFlow inputs = EngineInputs.massFlow baseInputs /\
       EngineInputs.bypassRatio inputs = EngineInputs.bypassRatio baseInputs /\
       EngineInputs.fanPressureRatio inputs = EngineInputs.fanPressureRatio baseInputs /\
       same_component_data inputs baseInputs).
Proof.
  exists (flat_map (trend_sample baseInputs) opr_sweep).
  split; [|split; [reflexivity|split; [|split]]].
  - unfold calculateTrends, calculateTrends_fuel.
    rewrite calculateTrends_loop_spec, count_up_opr_sweep. reflexivity.
  - intros p Hp. apply in_flat_map in Hp. destruct Hp as [x [Hx Hp]].
    apply trend_sample_In in Hp. destruct Hp as [-> Hp]. auto.
  - apply (flat_map_sorted (fun a b => (a <? b) = true) ChartPoint.opr).
    + intros x p Hp. now apply trend_sample_In in Hp.
    + apply trend_sample_length.
    + apply strictly_increasing_sorted, opr_sweep_increasing.
  - intros opr. cbv zeta. unfold same_component_data. repeat split.
Qed.

(** *** The flight envelope *)

(** The helper's inlet state is the solver's own at the same flight
    condition, whatever the mass flow. *)
Lemma getInletConditions_gas_path (baseInputs : EngineInputs.t) (h m mf : float) :
  getInletConditions h m (EngineInputs.pressureRecoveryInlet baseInputs)
  = {| inlet_Tt2 := Cycle.Tt2 (Cycle.gas_path (EngineInputs.with_flight baseInputs h m mf));
       inlet_Pt2 := Cycle.Pt2 (Cycle.gas_path (EngineInputs.with_flight baseInputs h m mf)) |}.
Proof. reflexivity. Qed.

Lemma envelope_body_spec (baseInputs : EngineInputs.t) (m j : float)
    (data : list EnvelopePoint.t) :
  envelope_body baseInputs m j data
  = data ++ envelope_cell baseInputs m ((j / 40) * 20).
Proof.
  unfold envelope_body, envelope_cell, altSteps, maxAlt. cbv zeta.
  rewrite (getInletConditions_gas_path baseInputs _ m (EngineInputs.massFlow baseInputs)).
  cbn [inlet_Tt2 inlet_Pt2].
  destruct (_ && _); [reflexivity|now rewrite app_nil_r].
Qed.

Lemma calculateEnvelope_inner_spec (fuel : nat) (baseInputs : EngineInputs.t)
    (m j : float) (data : list EnvelopePoint.t) :
  calculateEnvelope_inner fuel baseInputs m j data
  = option_map
      (fun js => data ++ flat_map (fun j => envelope_cell baseInputs m ((j / 40) * 20)) js)
      (count_up fuel j 40).
Proof.
  revert j data. induction fuel as [|fuel IH]; intros j data.
  - reflexivity.
  - cbn [calculateEnvelope_inner count_up].
    unfold altSteps at 1.
    destruct (j <=? 40); [|cbn [option_map flat_map]; now rewrite app_nil_r].
    rewrite IH, envelope_body_spec.
    destruct (count_up fuel (j + 1) 40) as [js|]; [|reflexivity].
    cbn [option_map flat_map]. now rewrite <- app_assoc.
Qed.

Lemma calculateEnvelope_outer_spec (fuel : nat) (baseInputs : EngineInputs.t)
    (i : float) (data : list EnvelopePoint.t) :
  calculateEnvelope_outer fuel baseInputs i data
  = option_map
      (fun ms =>
         data ++ flat_map
                   (fun i => flat_map
                               (fun j => envelope_cell baseInputs ((i / 50) * 2.5) ((j / 40) * 20))
                               (indices 41)) ms)
      (count_up fuel i 50).
Proof.
  revert i data. induction fuel as [|fuel IH]; intros i data.
  - reflexivity.
  - cbn [calculateEnvelope_outer count_up].
    unfold machSteps at 1.
    destruct (i <=? 50); [|cbn [option_map flat_map]; now rewrite app_nil_r].
    cbv zeta. unfold calculateEnvelope_fuel.
    rewrite calculateEnvelope_inner_spec, count_up_alt_indices.
    cbn [option_map]. rewrite IH. unfold machSteps, maxMach.
    destruct (count_up fuel (i + 1) 50) as [ms|]; [|reflexivity].
    cbn [option_map flat_map]. now rewrite <- app_assoc.
Qed.

Lemma flat_map_map {A B C : Type} (f : A -> B) (g : B -> list C) (l : list A) :
  flat_map g (map f l) = flat_map (fun x => g (f x)) l.
Proof.
  induction l as [|x l IH]; simpl; [reflexivity|now rewrite IH].
Qed.

Lemma envelope_cell_length (baseInputs : EngineInputs.t) (m h : float) :
  (List.length (envelope_cell baseInputs m h) <= 1)%nat.
Proof.
  unfold envelope_cell. cbv zeta. destruct (_ && _); cbn [List.length]; lia.
Qed.

Lemma envelope_cell_In (baseInputs : EngineInputs.t) (m h : float) (p : EnvelopePoint.t) :
  In p (envelope_cell baseInputs m h) ->
  EnvelopePoint.mach p = m /\ EnvelopePoint.altitude p = h /\
  EnvelopePoint.isValid p = true /\ (EnvelopePoint.thrust p >? 0) = true.
Proof.
  unfold envelope_cell. cbv zeta. destruct (_ && _) eqn:E; [|intros []].
  apply andb_prop in E. destruct E as [E1 E2].
  intros [<-|[]].
  cbn [EnvelopePoint.mach EnvelopePoint.altitude EnvelopePoint.isValid
       EnvelopePoint.thrust].
  repeat split; assumption.
Qed.

Lemma calculateEnvelope_is_grid (baseInputs : EngineInputs.t) :
  calculateEnvelope baseInputs = Some (envelope_grid baseInputs).
Proof.
  unfold calculateEnvelope, calculateEnvelope_fuel.
  rewrite calculateEnvelope_outer_spec, count_up_mach_indices.
  cbn [option_map app]. unfold envelope_grid, mach_grid, alt_grid.
  rewrite flat_map_map. apply (f_equal (@Some _)).
  apply flat_map_ext. intros i. now rewrite flat_map_map.
Qed.

Lemma calculateEnvelope_enough_fuel (baseInputs : EngineInputs.t) (fuel : nat) :
  (calculateEnvelope_fuel <= fuel)%nat ->
  calculateEnvelope_outer fuel baseInputs 0 [] = calculateEnvelope baseInputs.
Proof.
  unfold calculateEnvelope, calculateEnvelope_fuel. intros H.
  rewrite !calculateEnvelope_outer_spec.
  now rewrite (count_up_more_fuel _ _ _ _ _ count_up_mach_indices H),
    count_up_mach_indices.
Qed.

Lemma envelope_grid_length (baseInputs : EngineInputs.t) :
  (List.length (envelope_grid baseInputs) <= 41 * 51)%nat.
Proof.
  unfold envelope_grid.
  replace 51%nat with (List.length mach_grid) by reflexivity.
  apply flat_map_length_le. intros m.
  replace 41%nat with (1 * List.length alt_grid)%nat by reflexivity.
  apply flat_map_length_le. intros h. apply envelope_cell_length.
Qed.

Lemma envelope_grid_In (baseInputs : EngineInputs.t) (p : EnvelopePoint.t) :
  In p (envelope_grid baseInputs) ->
  In (EnvelopePoint.mach p) mach_grid /\
  In (EnvelopePoint.altitude p) alt_grid /\
  In p (envelope_cell baseInputs (EnvelopePoint.mach p) (EnvelopePoint.altitude p)) /\
  EnvelopePoint.isValid p = true /\
  (EnvelopePoint.thrust p >? 0) = true.
Proof.
  unfold envelope_grid. intros Hp.
  apply in_flat_map in Hp. destruct Hp as [m [Hm Hp]].
  apply in_flat_map in Hp. destruct Hp as [h [Hh Hp]].
  pose proof (envelope_cell_In _ _ _ _ Hp) as (Em & Eh & Ev & Et).
  rewrite Em, Eh. auto.
Qed.

(** The solve of a cell: its input has the altitude and the Mach number of
    the cell, the base mass flow scaled by [delta / sqrt theta] of the
    helper's inlet state at the cell, and the base value in every other
    field. *)
Lemma envelope_cell_solve (baseInputs : EngineInputs.t) (m h : float) :
  let ic := getInletConditions h m (EngineInputs.pressureRecoveryInlet baseInputs) in
  let theta := inlet_Tt2 ic / 288.15 in
  let delta := inlet_Pt2 ic / 101325 in
  exists inputs : EngineInputs.t,
    EngineInputs.altitude inputs = h /\
    EngineInputs.mach inputs = m /\
    EngineInputs.massFlow inputs
    = EngineInputs.massFlow baseInputs * (delta / Math_sqrt theta) /\
    EngineInputs.bypassRatio inputs = EngineInputs.bypassRatio baseInputs /\
    EngineInputs.overallPressureRatio inputs
    = EngineInputs.overallPressureRatio baseInputs /\
    EngineInputs.fanPressureRatio inputs = EngineInputs.fanPressureRatio baseInputs /\
    same_component_data inputs baseInputs /\
    envelope_cell baseInputs m h
    = (let perf := CalculationResult.performance (calculateCycle inputs) in
       if PerformanceResult.isValid perf && (PerformanceResult.thrust perf >? 0)
       then [ {| EnvelopePoint.mach := m;
                 EnvelopePoint.altitude := h;
                 EnvelopePoint.sfc := PerformanceResult.sfc perf;
                 EnvelopePoint.thrust := PerformanceResult.thrust perf;
                 EnvelopePoint.isValid := true |} ]
       else []).
Proof.
  intros ic theta delta.
  exists (EngineInputs.with_flight baseInputs h m
            (EngineInputs.massFlow baseInputs * (delta / Math_sqrt theta))).
  split; [reflexivity|]. split; [reflexivity|]. split; [reflexivity|].
  split; [reflexivity|]. split; [reflexivity|]. split; [reflexivity|].
  split; [unfold same_component_data; repeat split|].
  subst theta delta ic. unfold envelope_cell. cbv zeta.
  rewrite (getInletConditions_gas_path baseInputs h m (EngineInputs.massFlow baseInputs)).
  cbn [inlet_Tt2 inlet_Pt2]. reflexivity.
Qed.

(** C8. The envelope is the grid of the 51 Mach numbers [(i / 50) 2.5] by
    the 41 altitudes [(j / 40) 20], Mach first: each cell is solved at its
    altitude and Mach with the base mass flow scaled by [delta / sqrt theta]
    of its inlet stagnation state, and kept when the solve is valid with
    positive thrust; the result has at most 2091 points.  The last part
    fixes every field of the input of a cell's solve. *)
Theorem calculateEnvelope_grid (baseInputs : EngineInputs.t) :
  exists data : list EnvelopePoint.t,
    calculateEnvelope baseInputs = Some data /\
    data = envelope_grid baseInputs /\
    List.length mach_grid = 51%nat /\ List.length alt_grid = 41%nat /\
    (List.length data <= 2091)%nat /\
    (forall p, In p data ->
       In (EnvelopePoint.mach p) mach_grid /\
       In (EnvelopePoint.altitude p) alt_grid /\
       In p (envelope_cell baseInputs (EnvelopePoint.mach p) (EnvelopePoint.altitude p)) /\
       EnvelopePoint.isValid p = true /\
       (EnvelopePoint.thrust p >? 0) = true) /\
    (forall m h : float,
       let ic := getInletConditions h m (EngineInputs.pressureRecoveryInlet baseInputs) in
       let theta := inlet_Tt2 ic / 288.15 in
       let delta := inlet_Pt2 ic / 101325 in
       exists inputs : EngineInputs.t,
         EngineInputs.altitude inputs = h /\
         EngineInputs.mach inputs = m /\
         EngineInputs.massFlow inputs
         = EngineInputs.massFlow baseInputs * (delta / Math_sqrt theta) /\
         EngineInputs.bypassRatio inputs = EngineInputs.bypassRatio baseInputs /\
         EngineInputs.overallPressureRatio inputs
         = EngineInputs.overallPressureRatio baseInputs /\
         EngineInputs.fanPressureRatio inputs = EngineInputs.fanPressureRatio baseInputs /\
         same_component_data inputs baseInputs /\
         envelope_cell baseInputs m h
         = (let perf := CalculationResult.performance (calculateCycle inputs) in
            if PerformanceResult.isValid perf && (PerformanceResult.thrust perf >? 0)
            then [ {| EnvelopePoint.mach := m;
                      EnvelopePoint.altitude := h;
                      EnvelopePoint.sfc := PerformanceResult.sfc perf;
                      EnvelopePoint.thrust := PerformanceResult.thrust perf;
                      EnvelopePoint.isValid := true |} ]
            else [])).
Proof.
  exists (envelope_grid baseInputs).
  split; [apply calculateEnvelope_is_grid|].
  split; [reflexivity|]. split; [reflexivity|]. split; [reflexivity|].
  split; [exact (envelope_grid_length baseInputs)|].
  split; [exact (envelope_grid_In baseInputs)|].
  exact (envelope_cell_solve baseInputs).
Qed.

End SweepFacts.

(** ** Runs on concrete inputs

    The solver run with the reference [Math] on the example inputs. *)

(** C1, at [static_weak_fan]: the core stream is choked and feasible, the
    bypass nozzle is unchoked with a total pressure below ambient, and the
    cycle is returned valid with a bypass exit velocity of 0. *)
Lemma static_weak_fan_returned_valid :
  (snd (Cycle.core_nozzle (M:=RefMath.ref) static_weak_fan
          (Cycle.gas_path (M:=RefMath.ref) static_weak_fan)) = true /\
   (Cycle.Pt19 static_weak_fan (Cycle.gas_path (M:=RefMath.ref) static_weak_fan)
    / Cycle.P0 (Cycle.gas_path (M:=RefMath.ref) static_weak_fan)
    >? Cycle.critical_ratio_cold (M:=RefMath.ref)) = false /\
   (Cycle.Pt19 static_weak_fan (Cycle.gas_path (M:=RefMath.ref) static_weak_fan)
    >? Cycle.P0 (Cycle.gas_path (M:=RefMath.ref) static_weak_fan)) = false) /\
  PerformanceResult.isValid
    (CalculationResult.performance (calculateCycle (M:=RefMath.ref) static_weak_fan))
  = true /\
  PerformanceResult.bypassVelocity
    (CalculationResult.performance (calculateCycle (M:=RefMath.ref) static_weak_fan))
  = 0.
Proof.
  split.
  - vm_compute. repeat split.
  - apply (@bypass_no_expansion_returned_valid RefMath.ref static_weak_fan);
      vm_compute; reflexivity.
Defined.

(** What is returned there: a valid cycle without thrust, with NaN for the
    propulsive efficiency. *)
Example static_weak_fan_figures :
  let perf := CalculationResult.performance
                (calculateCycle (M:=RefMath.ref) static_weak_fan) in
  PerformanceResult.isValid perf = true /\
  PerformanceResult.thrust perf = 0 /\
  PerformanceResult.specificThrust perf = 0 /\
  PerformanceResult.sfc perf = 0 /\
  is_nan (PerformanceResult.propulsiveEfficiency perf) = true.
Proof. vm_compute. repeat split. Qed.

(** The core stream does flag such a nozzle, at [overdrawn_core]: the
    turbines are feasible, the core nozzle is unchoked with a total pressure
    below ambient, and the cycle is returned invalid. *)
Example overdrawn_core_returned_invalid :
  Cycle.isValid_LPT (Cycle.gas_path (M:=RefMath.ref) overdrawn_core) = true /\
  (Cycle.Pt9 overdrawn_core (Cycle.gas_path (M:=RefMath.ref) overdrawn_core)
   >? Cycle.P0 (Cycle.gas_path (M:=RefMath.ref) overdrawn_core)) = false /\
  PerformanceResult.isValid
    (CalculationResult.performance (calculateCycle (M:=RefMath.ref) overdrawn_core))
  = false.
Proof.
  split; [vm_compute; reflexivity|]. split; [vm_compute; reflexivity|].
  apply (@core_no_expansion_returned_invalid RefMath.ref overdrawn_core);
    vm_compute; reflexivity.
Qed.

(** C2 fails at [supersonic_dash]: the propulsive efficiency returned is
    0.9996..., above 0.999 and not above 1.0, in a valid cycle. *)
Lemma propulsiveEfficiency_above_0_999 :
  (PerformanceResult.propulsiveEfficiency
     (CalculationResult.performance (calculateCycle (M:=RefMath.ref) supersonic_dash))
   <=? 0.999) = false /\
  (PerformanceResult.propulsiveEfficiency
     (CalculationResult.performance (calculateCycle (M:=RefMath.ref) supersonic_dash))
   >? 0.999) = true /\
  (PerformanceResult.propulsiveEfficiency
     (CalculationResult.performance (calculateCycle (M:=RefMath.ref) supersonic_dash))
   <=? 1.0) = true /\
  PerformanceResult.isValid
    (CalculationResult.performance (calculateCycle (M:=RefMath.ref) supersonic_dash))
  = true.
Proof. vm_compute. repeat split. Qed.

(** C3 fails at [sea_level_mach_2_2]: a valid cycle with a negative net
    thrust; and with the mass flow negated, a valid cycle with a negative
    SFC. *)
Lemma valid_cycle_with_negative_thrust :
  (PerformanceResult.isValid
     (CalculationResult.performance (calculateCycle (M:=RefMath.ref) sea_level_mach_2_2))
   = true /\
   (PerformanceResult.thrust
      (CalculationResult.performance (calculateCycle (M:=RefMath.ref) sea_level_mach_2_2))
    >=? 0) = false /\
   (PerformanceResult.thrust
      (CalculationResult.performance (calculateCycle (M:=RefMath.ref) sea_level_mach_2_2))
    <? -59000) = true) /\
  (PerformanceResult.isValid
     (CalculationResult.performance
        (calculateCycle (M:=RefMath.ref) sea_level_mach_2_2_reversed))
   = true /\
   (PerformanceResult.sfc
      (CalculationResult.performance
         (calculateCycle (M:=RefMath.ref) sea_level_mach_2_2_reversed))
    >=? 0) = false).
Proof. vm_compute. repeat split. Qed.

(** C3, as the code has it, at the reference cruise point. *)
Lemma sfc_nonneg_at_reference_cruise :
  (PerformanceResult.sfc
     (CalculationResult.performance (calculateCycle (M:=RefMath.ref) reference_cruise))
   >=? 0) = true /\
  exists st : float,
    PerformanceResult.specificThrust
      (CalculationResult.performance (calculateCycle (M:=RefMath.ref) reference_cruise))
    = Cycle.sanitize st /\
    PerformanceResult.thrust
      (CalculationResult.performance (calculateCycle (M:=RefMath.ref) reference_cruise))
    = Cycle.sanitize (st * EngineInputs.massFlow reference_cruise).
Proof.
  apply (@sfc_nonneg_when_valid RefMath.ref reference_cruise);
    vm_compute; reflexivity.
Defined.

(** C4 at [cold_turbine], an invalid cycle. *)
Lemma cold_turbine_zero_figures :
  PerformanceResult.isValid
    (CalculationResult.performance (calculateCycle (M:=RefMath.ref) cold_turbine))
  = false /\
  PerformanceResult.thrust
    (CalculationResult.performance (calculateCycle (M:=RefMath.ref) cold_turbine)) = 0 /\
  PerformanceResult.specificThrust
    (CalculationResult.performance (calculateCycle (M:=RefMath.ref) cold_turbine)) = 0 /\
  PerformanceResult.sfc
    (CalculationResult.performance (calculateCycle (M:=RefMath.ref) cold_turbine)) = 0.
Proof.
  split.
  - vm_compute. reflexivity.
  - apply (@invalid_cycle_has_zero_figures RefMath.ref cold_turbine).
    vm_compute. reflexivity.
Defined.

(** C5 for the reference [Math], whose [pow] gives 1 for the base 1: the
    ground, the reference cruise altitude in the lower layer, and 15 km in
    the upper one. *)
Lemma getAtmosphere_reference :
  getAtmosphere (M:=RefMath.ref) 0 = {| atm_T0 := 288.15; atm_P0 := 101325 |} /\
  getAtmosphere (M:=RefMath.ref) 10.7
  = {| atm_T0 := 288.15 - 0.0065 * (10.7 * 1000);
       atm_P0 := 101325 * RefMath.pow (1 - 0.0065 * (10.7 * 1000) / 288.15) 5.25588 |} /\
  getAtmosphere (M:=RefMath.ref) 15
  = {| atm_T0 := 216.65;
       atm_P0 := 22632.1
                 * RefMath.exp (- 9.80665 * (15 * 1000 - 11000) / (287.05 * 216.65)) |}.
Proof.
  destruct (getAtmosphere_layers RefMath.ref) as (L & _ & _ & Z).
  split; [apply Z; vm_compute; reflexivity|].
  split; [apply (L 10.7)|apply (L 15)]; vm_compute; reflexivity.
Defined.

(** C6 at [low_pressure_turbojet]: the quotient 1 / 1.65 is below the floor,
    the ratio used is 1.1, and the cycle is valid.  At [reference_cruise]
    the quotient is above the floor and is the ratio used.  At
    [cold_turbine_on_the_floor] the cycle is invalid, and a test fails. *)
Lemma low_pressure_turbojet_on_the_floor :
  (EngineInputs.overallPressureRatio low_pressure_turbojet
   / EngineInputs.fanPressureRatio low_pressure_turbojet <? 1.1) = true /\
  Math_max 1.1 (EngineInputs.overallPressureRatio low_pressure_turbojet
                / EngineInputs.fanPressureRatio low_pressure_turbojet) = 1.1 /\
  PerformanceResult.isValid
    (CalculationResult.performance
       (calculateCycle (M:=RefMath.ref) low_pressure_turbojet)) = true /\
  (1.1 <? EngineInputs.overallPressureRatio reference_cruise
          / EngineInputs.fanPressureRatio reference_cruise) = true /\
  Math_max 1.1 (EngineInputs.overallPressureRatio reference_cruise
                / EngineInputs.fanPressureRatio reference_cruise)
  = EngineInputs.overallPressureRatio reference_cruise
    / EngineInputs.fanPressureRatio reference_cruise /\
  PerformanceResult.isValid
    (CalculationResult.performance
       (calculateCycle (M:=RefMath.ref) cold_turbine_on_the_floor)) = false /\
  ((Cycle.Tt45 (Cycle.gas_path (M:=RefMath.ref) cold_turbine_on_the_floor)
    <? Cycle.Tt3 (Cycle.gas_path (M:=RefMath.ref) cold_turbine_on_the_floor)) = true \/
   hpt_infeasible cold_turbine_on_the_floor
     (Cycle.gas_path (M:=RefMath.ref) cold_turbine_on_the_floor) = true \/
   (Cycle.Tt5 (Cycle.gas_path (M:=RefMath.ref) cold_turbine_on_the_floor)
    <? Cycle.T0 (Cycle.gas_path (M:=RefMath.ref) cold_turbine_on_the_floor)) = true \/
   lpt_infeasible cold_turbine_on_the_floor
     (Cycle.gas_path (M:=RefMath.ref) cold_turbine_on_the_floor) = true \/
   core_expands (M:=RefMath.ref) cold_turbine_on_the_floor
     (Cycle.gas_path (M:=RefMath.ref) cold_turbine_on_the_floor) = false).
Proof.
  split; [vm_compute; reflexivity|]. split.
  { destruct (@hpcPressureRatio_floor RefMath.ref low_pressure_turbojet)
      as (_ & _ & _ & F & _).
    apply F. vm_compute. reflexivity. }
  split; [vm_compute; reflexivity|].
  split; [vm_compute; reflexivity|]. split.
  { destruct (@hpcPressureRatio_floor RefMath.ref reference_cruise)
      as (_ & _ & _ & _ & _ & F & _).
    apply F. vm_compute. reflexivity. }
  split; [vm_compute; reflexivity|].
  destruct (@hpcPressureRatio_floor RefMath.ref cold_turbine_on_the_floor)
    as (_ & _ & _ & _ & _ & _ & _ & F & _).
  apply F. vm_compute. reflexivity.
Defined.

(** At [cold_turbine_on_the_floor] the ratio used is 1.1 and every turbine
    test passes: the test that fails is the one of the core nozzle, which
    cannot expand. *)
Example cold_turbine_on_the_floor_core_nozzle :
  let g := Cycle.gas_path (M:=RefMath.ref) cold_turbine_on_the_floor in
  Cycle.pi_ch g = 1.1 /\
  turbine_checks cold_turbine_on_the_floor g = true /\
  core_expands (M:=RefMath.ref) cold_turbine_on_the_floor g = false.
Proof. vm_compute. repeat split. Qed.

(** C9 at the reference cruise point, with a second efficiency of 0.5. *)
Lemma efficiencyLPC_no_influence_at_reference_cruise :
  calculateCycle (M:=RefMath.ref) reference_cruise
  = calculateCycle (M:=RefMath.ref) (EngineInputs.with_efficiencyLPC reference_cruise 0.5).
Proof.
  apply (@efficiencyLPC_has_no_influence RefMath.ref).
  unfold differ_only_in_efficiencyLPC. repeat split.
Defined.

(** * Further properties *)

(** ** More on the binary64 order and signs *)

(** Two comparisons in a row, by cases on the three values: the signs settle
    most, the exponents and mantissas the rest. *)
Ltac SFcompare_chain a b c :=
  destruct a as [?sa|?sa| |?sa ?ma ?ea], b as [?sb|?sb| |?sb ?mb ?eb],
           c as [?sc|?sc| |?sc ?mc ?ec];
  repeat match goal with s : bool |- _ => destruct s end; simpl;
  try discriminate; try reflexivity;
  change (Pos.compare_cont Eq) with Pos.compare;
  intros;
  repeat match goal with
  | |- context [Z.compare ?x ?y] => destruct (Z.compare_spec x y)
  | H : context [Z.compare ?x ?y] |- _ => destruct (Z.compare_spec x y)
  end;
  try discriminate; try reflexivity; try lia; subst;
  repeat match goal with
  | |- context [Pos.compare ?x ?y] => destruct (Pos.compare_spec x y)
  | H : context [Pos.compare ?x ?y] |- _ => destruct (Pos.compare_spec x y)
  end;
  simpl in *; try discriminate; try reflexivity; try lia.

Section MoreFloatFacts.

Lemma SFcompare_lt_trans (a b c : spec_float) :
  SFcompare a b = Some Lt -> SFcompare b c = Some Lt -> SFcompare a c = Some Lt.
Proof. SFcompare_chain a b c. Qed.

Lemma SFcompare_eq_lt (a b c : spec_float) :
  SFcompare a b = Some Eq -> SFcompare b c = Some Lt -> SFcompare a c = Some Lt.
Proof. SFcompare_chain a b c. Qed.

Lemma SFcompare_lt_eq (a b c : spec_float) :
  SFcompare a b = Some Lt -> SFcompare b c = Some Eq -> SFcompare a c = Some Lt.
Proof. SFcompare_chain a b c. Qed.

Lemma SFcompare_eq_trans (a b c : spec_float) :
  SFcompare a b = Some Eq -> SFcompare b c = Some Eq -> SFcompare a c = Some Eq.
Proof. SFcompare_chain a b c. Qed.

(** [<] and [<=] on Numbers are transitive. *)
Lemma ltb_trans (a b c : float) :
  (a <? b) = true -> (b <? c) = true -> (a <? c) = true.
Proof. rewrite !ltb_compare. apply SFcompare_lt_trans. Qed.

Lemma leb_trans (a b c : float) :
  (a <=? b) = true -> (b <=? c) = true -> (a <=? c) = true.
Proof.
  rewrite !leb_compare. intros [H1|H1] [H2|H2].
  - left. eapply SFcompare_lt_trans; eauto.
  - left. eapply SFcompare_lt_eq; eauto.
  - left. eapply SFcompare_eq_lt; eauto.
  - right. eapply SFcompare_eq_trans; eauto.
Qed.



Lemma ltb_is_nan_r (a b : float) : is_nan b = true -> (a <? b) = false.
Proof.
  intros N. destruct (a <? b) eqn:E; [|reflexivity].
  apply ltb_not_nan in E. destruct E as [_ E]. congruence.
Qed.

Lemma ltb_irrefl (a : float) : (a <? a) = false.
Proof.
  destruct (a <? a) eqn:E; [|reflexivity].
  now rewrite (ltb_asym _ _ E) in E.
Qed.

(** A comparison with NaN fails. *)
Lemma ltb_nan_l (a : float) : (nan <? a) = false.
Proof.
  destruct (nan <? a) eqn:E; [|reflexivity].
  apply ltb_not_nan in E. destruct E as [E _]. discriminate E.
Qed.

(** What is not negative is not below zero. *)
Lemma nonneg_not_below_zero (x : float) : nonneg_or_nan x -> (x <? 0) = false.
Proof.
  unfold nonneg_or_nan. intros H.
  destruct (x <? 0) eqn:E; [|reflexivity].
  apply ltb_compare in E. rewrite Prim2SF_zero in E.
  destruct (Prim2SF x) as [s|s| |s m e]; simpl in E; subst; discriminate.
Qed.

(** A square root is never negative. *)
Lemma sqrt_nonneg (x : float) : nonneg_or_nan (Math_sqrt x).
Proof.
  unfold nonneg_or_nan, Math_sqrt. rewrite sqrt_spec. unfold SF64sqrt, SFsqrt.
  destruct (Prim2SF x) as [s|s| |s m e]; try destruct s; auto.
  destruct (SFsqrt_core_binary prec emax (Zpos m) e) as [[mz ez] lz].
  pose proof (binary_round_aux_sign false mz ez lz) as H.
  destruct (binary_round_aux _ _ _ _ _ _); auto.
Qed.

(** [Math.max] is below neither argument. *)
Lemma Math_max_not_below_l (a b : float) : (Math_max a b <? a) = false.
Proof.
  unfold Math_max. destruct (is_nan a || is_nan b); [apply ltb_nan_l|].
  destruct (a <? b) eqn:E1; [now apply ltb_asym|].
  destruct (b <? a) eqn:E2; [apply ltb_irrefl|].
  destruct (get_sign a); [exact E2|apply ltb_irrefl].
Qed.

Lemma Math_max_not_below_r (a b : float) : (Math_max a b <? b) = false.
Proof.
  unfold Math_max. destruct (is_nan a || is_nan b); [apply ltb_nan_l|].
  destruct (a <? b) eqn:E1; [apply ltb_irrefl|].
  destruct (b <? a) eqn:E2; [now apply ltb_asym|].
  destruct (get_sign a); [apply ltb_irrefl|exact E1].
Qed.

End MoreFloatFacts.

(** ** The fan and bypass trends *)

Lemma count_by_fpr_sweep : count_by 32 1.1 0.1 4.0 = Some fpr_sweep.
Proof. vm_compute. reflexivity. Qed.

Lemma count_by_bpr_sweep : count_by 160 0.2 0.1 15.0 = Some bpr_sweep.
Proof. vm_compute. reflexivity. Qed.

Lemma fpr_sweep_increasing : strictly_increasing fpr_sweep = true.
Proof. vm_compute. reflexivity. Qed.

Lemma bpr_sweep_increasing : strictly_increasing bpr_sweep = true.
Proof. vm_compute. reflexivity. Qed.

Lemma fpr_sweep_bounds :
  forallb (fun x => (1.1 <=? x) && (x <=? 3.9000000000000026) && (x <? 4.0)) fpr_sweep
  = true.
Proof. vm_compute. reflexivity. Qed.

Lemma bpr_sweep_bounds :
  forallb (fun x => (0.2 <=? x) && (x <=? 14.999999999999963) && (x <? 15.0)) bpr_sweep
  = true.
Proof. vm_compute. reflexivity. Qed.

Lemma opr_sweep_bounds : forallb (fun x => (10 <=? x) && (x <=? 60)) opr_sweep = true.
Proof. vm_compute. reflexivity. Qed.

Lemma flat_map_all_nil {A B : Type} (g : A -> list B) (l : list A) :
  (forall x, In x l -> g x = []) -> flat_map g l = [].
Proof.
  induction l as [|x l IH]; intros H; cbn [flat_map]; [reflexivity|].
  rewrite (H x (or_introl eq_refl)), IH; [reflexivity|].
  intros y Hy. apply H. now right.
Qed.

Section MoreSweepFacts.
Context {M : Math}.

(** *** The fan trend *)

Lemma calculateFanTrends_loop_spec (fuel : nat) (baseInputs : EngineInputs.t)
    (fpr : float) (points : list FanTrendPoint.t) :
  calculateFanTrends_loop fuel baseInputs fpr points
  = option_map (fun xs => points ++ flat_map (fan_sample baseInputs) xs)
      (count_by fuel fpr 0.1 4.0).
Proof.
  revert fpr points. induction fuel as [|fuel IH]; intros fpr points.
  - reflexivity.
  - cbn [calculateFanTrends_loop count_by].
    destruct (fpr <=? 4.0); [|cbn [option_map flat_map]; now rewrite app_nil_r].
    pose proof (eq_refl (fan_sample baseInputs fpr)) as T.
    unfold fan_sample at 2 in T.
    destruct (fpr >=? EngineInputs.overallPressureRatio baseInputs).
    + rewrite IH. destruct (count_by fuel (fpr + 0.1) 0.1 4.0); [|reflexivity].
      cbn [option_map flat_map]. now rewrite T.
    + cbv zeta in *. rewrite IH.
      destruct (count_by fuel (fpr + 0.1) 0.1 4.0) as [xs|]; [|reflexivity].
      cbn [option_map flat_map]. rewrite T.
      destruct (_ && _); [now rewrite <- app_assoc|reflexivity].
Qed.

Lemma calculateFanTrends_is_sweep (baseInputs : EngineInputs.t) :
  calculateFanTrends baseInputs = Some (flat_map (fan_sample baseInputs) fpr_sweep).
Proof.
  unfold calculateFanTrends, calculateFanTrends_fuel.
  now rewrite calculateFanTrends_loop_spec, count_by_fpr_sweep.
Qed.

Lemma fan_sample_length (baseInputs : EngineInputs.t) (fpr : float) :
  (List.length (fan_sample baseInputs fpr) <= 1)%nat.
Proof.
  unfold fan_sample. destruct (fpr >=? _); [cbn [List.length]; lia|].
  cbv zeta. destruct (_ && _); cbn [List.length]; lia.
Qed.

Lemma fan_sample_In (baseInputs : EngineInputs.t) (fpr : float) (p : FanTrendPoint.t) :
  In p (fan_sample baseInputs fpr) ->
  FanTrendPoint.fpr p = fpr /\
  (fpr >=? EngineInputs.overallPressureRatio baseInputs) = false /\
  let perf := CalculationResult.performance
                (calculateCycle (EngineInputs.with_fanPressureRatio baseInputs fpr)) in
  PerformanceResult.isValid perf = true /\
  (PerformanceResult.specificThrust perf >? 0) = true /\
  FanTrendPoint.sfc p = PerformanceResult.sfc perf /\
  FanTrendPoint.specificThrust p = PerformanceResult.specificThrust perf.
Proof.
  unfold fan_sample. destruct (fpr >=? _); [intros []|].
  cbv zeta. destruct (_ && _) eqn:E; [|intros []].
  apply andb_prop in E. destruct E as [E1 E2].
  intros [<-|[]].
  cbn [FanTrendPoint.fpr FanTrendPoint.sfc FanTrendPoint.specificThrust].
  repeat split; assumption.
Qed.

(** X1. The fan trend samples 29 fan pressure ratios, from 1.1 to
    3.9000000000000026: the sums of 0.1 drift upwards and pass 4.0 before
    reaching it, so 4.0 is not sampled.  It skips the ratios at or above the
    base overall pressure ratio and keeps the valid solves of positive
    specific thrust, in increasing order of the ratio.  The input of each
    solve has the fan pressure ratio of the sweep and the base value in
    every other field. *)
Theorem calculateFanTrends_sweep (baseInputs : EngineInputs.t) :
  exists points : list FanTrendPoint.t,
    calculateFanTrends baseInputs = Some points /\
    points = flat_map (fan_sample baseInputs) fpr_sweep /\
    List.length fpr_sweep = 29%nat /\
    (List.length points <= 29)%nat /\
    (forall p, In p points ->
       In (FanTrendPoint.fpr p) fpr_sweep /\
       (1.1 <=? FanTrendPoint.fpr p) = true /\
       (FanTrendPoint.fpr p <=? 3.9000000000000026) = true /\
       (FanTrendPoint.fpr p <? 4.0) = true /\
       (FanTrendPoint.fpr p >=? EngineInputs.overallPressureRatio baseInputs) = false /\
       let perf := CalculationResult.performance
                     (calculateCycle (EngineInputs.with_fanPressureRatio
                                        baseInputs (FanTrendPoint.fpr p))) in
       PerformanceResult.isValid perf = true /\
       (PerformanceResult.specificThrust perf >? 0) = true /\
       FanTrendPoint.sfc p = PerformanceResult.sfc perf /\
       FanTrendPoint.specificThrust p = PerformanceResult.specificThrust perf) /\
    StronglySorted (fun p q => (FanTrendPoint.fpr p <? FanTrendPoint.fpr q) = true) points /\
    (forall fpr : float,
       let inputs := EngineInputs.with_fanPressureRatio baseInputs fpr in
       EngineInputs.fanPressureRatio inputs = fpr /\
       EngineInputs.altitude inputs = EngineInputs.altitude baseInputs /\
       EngineInputs.mach inputs = EngineInputs.mach baseInputs /\
       EngineInputs.massFlow inputs = EngineInputs.massFlow baseInputs /\
       EngineInputs.bypassRatio inputs = EngineInputs.bypassRatio baseInputs /\
       EngineInputs.overallPressureRatio inputs = EngineInputs.overallPressureRatio baseInputs /\
       same_component_data inputs baseInputs).
Proof.
  exists (flat_map (fan_sample baseInputs) fpr_sweep).
  split; [apply calculateFanTrends_is_sweep|].
  split; [reflexivity|]. split; [reflexivity|]. split; [|split; [|split]].
  - replace 29%nat with (1 * List.length fpr_sweep)%nat by reflexivity.
    apply flat_map_length_le, fan_sample_length.
  - intros p Hp. apply in_flat_map in Hp. destruct Hp as [x [Hx Hp]].
    apply fan_sample_In in Hp. destruct Hp as [-> Hp].
    pose proof fpr_sweep_bounds as B. rewrite forallb_forall in B.
    specialize (B x Hx). apply andb_prop in B. destruct B as [B B3].
    apply andb_prop in B. destruct B as [B1 B2]. auto.
  - apply (flat_map_sorted (fun a b => (a <? b) = true) FanTrendPoint.fpr).
    + intros x p Hp. now apply fan_sample_In in Hp.
    + apply fan_sample_length.
    + apply strictly_increasing_sorted, fpr_sweep_increasing.
  - intros fpr. cbv zeta. unfold same_component_data. repeat split.
Qed.

(** *** The bypass trend *)

(** The loop's update of [points] appends the sample. *)
Lemma calculateBypassTrends_step (baseInputs : EngineInputs.t) (bpr : float)
    (points : list BypassTrendPoint.t) :
  (let res := calculateCycle (EngineInputs.with_bypassRatio baseInputs bpr) in
   let perf := CalculationResult.performance res in
   if PerformanceResult.isValid perf && (PerformanceResult.specificThrust perf >? 0)
   then points ++ [ {| BypassTrendPoint.bpr := bpr;
                       BypassTrendPoint.sfc := PerformanceResult.sfc perf;
                       BypassTrendPoint.specificThrust := PerformanceResult.specificThrust perf |} ]
   else points)
  = points ++ bypass_sample baseInputs bpr.
Proof.
  unfold bypass_sample. cbv zeta.
  destruct (_ && _); [reflexivity|now rewrite app_nil_r].
Qed.

Lemma calculateBypassTrends_loop_spec (fuel : nat) (baseInputs : EngineInputs.t)
    (bpr : float) (points : list BypassTrendPoint.t) :
  calculateBypassTrends_loop fuel baseInputs bpr points
  = option_map (fun xs => points ++ flat_map (bypass_sample baseInputs) xs)
      (count_by fuel bpr 0.1 15.0).
Proof.
  revert bpr points. induction fuel as [|fuel IH]; intros bpr points.
  - reflexivity.
  - cbn [calculateBypassTrends_loop count_by].
    destruct (bpr <=? 15.0); [|cbn [option_map flat_map]; now rewrite app_nil_r].
    cbv zeta. rewrite IH.
    pose proof (calculateBypassTrends_step baseInputs bpr points) as T.
    cbv zeta in T. rewrite T.
    destruct (count_by fuel (bpr + 0.1) 0.1 15.0) as [xs|]; [|reflexivity].
    cbn [option_map flat_map]. now rewrite <- app_assoc.
Qed.

Lemma calculateBypassTrends_is_sweep (baseInputs : EngineInputs.t) :
  calculateBypassTrends baseInputs
  = Some (flat_map (bypass_sample baseInputs) bpr_sweep).
Proof.
  unfold calculateBypassTrends, calculateBypassTrends_fuel.
  now rewrite calculateBypassTrends_loop_spec, count_by_bpr_sweep.
Qed.

Lemma bypass_sample_length (baseInputs : EngineInputs.t) (bpr : float) :
  (List.length (bypass_sample baseInputs bpr) <= 1)%nat.
Proof.
  unfold bypass_sample. cbv zeta. destruct (_ && _); cbn [List.length]; lia.
Qed.

Lemma bypass_sample_In (baseInputs : EngineInputs.t) (bpr : float)
    (p : BypassTrendPoint.t) :
  In p (bypass_sample baseInputs bpr) ->
  BypassTrendPoint.bpr p = bpr /\
  let perf := CalculationResult.performance
                (calculateCycle (EngineInputs.with_bypassRatio baseInputs bpr)) in
  PerformanceResult.isValid perf = true /\
  (PerformanceResult.specificThrust perf >? 0) = true /\
  BypassTrendPoint.sfc p = PerformanceResult.sfc perf /\
  BypassTrendPoint.specificThrust p = PerformanceResult.specificThrust perf.
Proof.
  unfold bypass_sample. cbv zeta. destruct (_ && _) eqn:E; [|intros []].
  apply andb_prop in E. destruct E as [E1 E2].
  intros [<-|[]].
  cbn [BypassTrendPoint.bpr BypassTrendPoint.sfc BypassTrendPoint.specificThrust].
  repeat split; assumption.
Qed.

(** X2. The bypass trend samples 149 bypass ratios, from 0.2 to
    14.999999999999963, all below 15, and keeps every valid solve of
    positive specific thrust, in increasing order of the ratio.  The input
    of each solve has the bypass ratio of the sweep and the base value in
    every other field. *)
Theorem calculateBypassTrends_sweep (baseInputs : EngineInputs.t) :
  exists points : list BypassTrendPoint.t,
    calculateBypassTrends baseInputs = Some points /\
    points = flat_map (bypass_sample baseInputs) bpr_sweep /\
    List.length bpr_sweep = 149%nat /\
    (List.length points <= 149)%nat /\
    (forall p, In p points ->
       In (BypassTrendPoint.bpr p) bpr_sweep /\
       (0.2 <=? BypassTrendPoint.bpr p) = true /\
       (BypassTrendPoint.bpr p <=? 14.999999999999963) = true /\
       (BypassTrendPoint.bpr p <? 15.0) = true /\
       let perf := CalculationResult.performance
                     (calculateCycle (EngineInputs.with_bypassRatio
                                        baseInputs (BypassTrendPoint.bpr p))) in
       PerformanceResult.isValid perf = true /\
       (PerformanceResult.specificThrust perf >? 0) = true /\
       BypassTrendPoint.sfc p = PerformanceResult.sfc perf /\
       BypassTrendPoint.specificThrust p = PerformanceResult.specificThrust perf) /\
    StronglySorted
      (fun p q => (BypassTrendPoint.bpr p <? BypassTrendPoint.bpr q) = true) points /\
    (forall bpr : float,
       let inputs := EngineInputs.with_bypassRatio baseInputs bpr in
       EngineInputs.bypassRatio inputs = bpr /\
       EngineInputs.altitude inputs = EngineInputs.altitude baseInputs /\
       EngineInputs.mach inputs = EngineInputs.mach baseInputs /\
       EngineInputs.massFlow inputs = EngineInputs.massFlow baseInputs /\
       EngineInputs.overallPressureRatio inputs = EngineInputs.overallPressureRatio baseInputs /\
       EngineInputs.fanPressureRatio inputs = EngineInputs.fanPressureRatio baseInputs /\
       same_component_data inputs baseInputs).
Proof.
  exists (flat_map (bypass_sample baseInputs) bpr_sweep).
  split; [apply calculateBypassTrends_is_sweep|].
  split; [reflexivity|]. split; [reflexivity|]. split; [|split; [|split]].
  - replace 149%nat with (1 * List.length bpr_sweep)%nat by reflexivity.
    apply flat_map_length_le, bypass_sample_length.
  - intros p Hp. apply in_flat_map in Hp. destruct Hp as [x [Hx Hp]].
    apply bypass_sample_In in Hp. destruct Hp as [-> Hp].
    pose proof bpr_sweep_bounds as B. rewrite forallb_forall in B.
    specialize (B x Hx). apply andb_prop in B. destruct B as [B B3].
    apply andb_prop in B. destruct B as [B1 B2]. auto.
  - apply (flat_map_sorted (fun a b => (a <? b) = true) BypassTrendPoint.bpr).
    + intros x p Hp. now apply bypass_sample_In in Hp.
    + apply bypass_sample_length.
    + apply strictly_increasing_sorted, bpr_sweep_increasing.
  - intros bpr. cbv zeta. unfold same_component_data. repeat split.
Qed.

(** *** Trends that come out empty *)

(** X3. With a base fan pressure ratio of 60 or more every overall pressure
    ratio of the sweep is skipped: the trend is empty. *)
Theorem calculateTrends_empty (baseInputs : EngineInputs.t) :
  (EngineInputs.fanPressureRatio baseInputs >=? 60) = true ->
  calculateTrends baseInputs = Some [].
Proof.
  intros H. unfold calculateTrends, calculateTrends_fuel.
  rewrite calculateTrends_loop_spec, count_up_opr_sweep.
  cbn [option_map app]. apply (f_equal (@Some _)).
  apply flat_map_all_nil. intros x Hx.
  pose proof opr_sweep_bounds as B. rewrite forallb_forall in B.
  specialize (B x Hx). apply andb_prop in B. destruct B as [_ B].
  unfold trend_sample. now rewrite (leb_trans _ _ _ B H).
Qed.

(** X4. With a base overall pressure ratio of 1.1 or less every fan pressure
    ratio of the sweep is skipped: the fan trend is empty. *)
Theorem calculateFanTrends_empty (baseInputs : EngineInputs.t) :
  (EngineInputs.overallPressureRatio baseInputs <=? 1.1) = true ->
  calculateFanTrends baseInputs = Some [].
Proof.
  intros H. rewrite calculateFanTrends_is_sweep. apply (f_equal (@Some _)).
  apply flat_map_all_nil. intros x Hx.
  pose proof fpr_sweep_bounds as B. rewrite forallb_forall in B.
  specialize (B x Hx). apply andb_prop in B. destruct B as [B _].
  apply andb_prop in B. destruct B as [B _].
  unfold fan_sample. now rewrite (leb_trans _ _ _ H B).
Qed.

End MoreSweepFacts.

(** ** More on the solver's result *)
Section MoreCycleFacts.
Context {M : Math}.

(** *** When a cycle is valid *)

(** X5. The validity flag is true exactly when every test of the two turbine
    stages passes and the core nozzle can expand; the bypass nozzle has no
    say. *)
Theorem isValid_characterised (inputs : EngineInputs.t) :
  PerformanceResult.isValid (CalculationResult.performance (calculateCycle inputs))
  = turbine_checks inputs (Cycle.gas_path inputs)
    && core_expands inputs (Cycle.gas_path inputs).
Proof.
  rewrite calculateCycle_isValid, bypass_nozzle_keeps_flag, core_nozzle_flag.
  now rewrite isValid_LPT_checks.
Qed.

(** *** Infeasible turbine stages *)

Lemma gas_path_Pt45_held (inputs : EngineInputs.t) :
  hpt_infeasible inputs (Cycle.gas_path inputs) = true ->
  Cycle.Pt45 (Cycle.gas_path inputs) = Cycle.Pt4 (Cycle.gas_path inputs).
Proof.
  unfold hpt_infeasible.
  lazy beta iota zeta delta [Cycle.gas_path Cycle.Pt45 Cycle.Pt4 Cycle.Tt45
                             Cycle.Tt4 fst snd].
  destruct_comparisons; intros H; try reflexivity; discriminate H.
Qed.

Lemma gas_path_Pt5_held (inputs : EngineInputs.t) :
  lpt_infeasible inputs (Cycle.gas_path inputs) = true ->
  Cycle.Pt5 (Cycle.gas_path inputs) = Cycle.Pt45 (Cycle.gas_path inputs).
Proof.
  unfold lpt_infeasible.
  lazy beta iota zeta delta [Cycle.gas_path Cycle.Pt5 Cycle.Pt45 Cycle.Tt45
                             Cycle.Tt5 fst snd].
  destruct_comparisons; intros H; try reflexivity; discriminate H.
Qed.

(** X6. A turbine stage whose test fails keeps the total pressure of its inlet
    at its exit, and the cycle is invalid. *)
Theorem infeasible_turbine_holds_pressure (inputs : EngineInputs.t) :
  let g := Cycle.gas_path inputs in
  let valid := PerformanceResult.isValid
                 (CalculationResult.performance (calculateCycle inputs)) in
  (hpt_infeasible inputs g = true -> Cycle.Pt45 g = Cycle.Pt4 g /\ valid = false) /\
  (lpt_infeasible inputs g = true -> Cycle.Pt5 g = Cycle.Pt45 g /\ valid = false).
Proof.
  intros g valid. subst g valid.
  rewrite calculateCycle_isValid, bypass_nozzle_keeps_flag, core_nozzle_flag.
  rewrite isValid_LPT_checks. unfold turbine_checks. split; intros H.
  - split; [now apply gas_path_Pt45_held|].
    rewrite H. cbn [negb]. now rewrite andb_false_r.
  - split; [now apply gas_path_Pt5_held|].
    rewrite H. cbn [negb]. now rewrite andb_false_r.
Qed.

(** *** The fields of an invalid result *)

Lemma core_nozzle_invalid_exit (inputs : EngineInputs.t) (g : Cycle.GasPath) :
  snd (Cycle.core_nozzle inputs g) = false ->
  fst (Cycle.core_nozzle inputs g)
  = {| Cycle.exit_P := Cycle.P0 g; Cycle.exit_T := Cycle.Tt5 g; Cycle.exit_V := 0 |}.
Proof.
  unfold Cycle.core_nozzle. cbv zeta.
  destruct (Cycle.isValid_LPT g); [|reflexivity].
  destruct (_ >? Cycle.critical_ratio_hot); [discriminate|].
  destruct (_ >? _); [discriminate|reflexivity].
Qed.

Lemma bypass_nozzle_invalid_exit (inputs : EngineInputs.t) (g : Cycle.GasPath) :
  fst (Cycle.bypass_nozzle inputs g false)
  = {| Cycle.exit_P := Cycle.P0 g; Cycle.exit_T := Cycle.Tt13 g; Cycle.exit_V := 0 |}.
Proof. reflexivity. Qed.

(** X7. An invalid result has the three efficiencies and the two exit
    velocities at zero, and its nozzle stations repeat what is upstream:
    station 9 has the temperature of station 5, station 19 that of station
    2.5, both at the ambient pressure of station 0. *)
Theorem invalid_cycle_is_degenerate (inputs : EngineInputs.t) :
  let res := calculateCycle inputs in
  let perf := CalculationResult.performance res in
  PerformanceResult.isValid perf = false ->
  PerformanceResult.thermalEfficiency perf = 0 /\
  PerformanceResult.propulsiveEfficiency perf = 0 /\
  PerformanceResult.overallEfficiency perf = 0 /\
  PerformanceResult.coreVelocity perf = 0 /\
  PerformanceResult.bypassVelocity perf = 0 /\
  exists T0 P0 Tt2 Pt2 Tt13 Pt13 Tt3 Pt3 Tt4 Pt4 Tt45 Pt45 Tt5 Pt5 : float,
    station_values res
    = [ ("0", T0, P0); ("2", Tt2, Pt2); ("2.5", Tt13, Pt13); ("3", Tt3, Pt3);
        ("4", Tt4, Pt4); ("4.5", Tt45, Pt45); ("5", Tt5, Pt5);
        ("9", Tt5, P0); ("19", Tt13, P0) ]%string.
Proof.
  intros res perf. subst res perf.
  rewrite calculateCycle_isValid, bypass_nozzle_keeps_flag. intros Hc.
  unfold station_values, calculateCycle. cbv zeta.
  cbn [CalculationResult.performance CalculationResult.stations map
       PerformanceResult.thermalEfficiency PerformanceResult.propulsiveEfficiency
       PerformanceResult.overallEfficiency PerformanceResult.coreVelocity
       PerformanceResult.bypassVelocity
       StationResult.label StationResult.temp StationResult.pressure].
  rewrite Hc, (core_nozzle_invalid_exit _ _ Hc), bypass_nozzle_invalid_exit.
  cbn [snd Cycle.exit_P Cycle.exit_T Cycle.exit_V].
  rewrite figures_invalid.
  repeat split. repeat eexists.
Qed.

(** *** Signs and bounds of the result *)

(** X8. The fuel-air ratio that is returned is never negative: it is NaN or at
    least 0. *)
Theorem fuelAirRatio_not_negative (inputs : EngineInputs.t) :
  let far := PerformanceResult.fuelAirRatio
               (CalculationResult.performance (calculateCycle inputs)) in
  (far <? 0) = false /\ (is_nan far = true \/ (far >=? 0) = true).
Proof.
  intros far.
  assert (H : nonneg_or_nan far) by apply gas_path_f_nonneg.
  split; [now apply nonneg_not_below_zero|].
  destruct (is_nan far) eqn:N; [now left|right; now apply nonneg_leb].
Qed.

Lemma core_nozzle_velocity_nonneg (inputs : EngineInputs.t) (g : Cycle.GasPath) :
  nonneg_or_nan (Cycle.exit_V (fst (Cycle.core_nozzle inputs g))).
Proof.
  unfold Cycle.core_nozzle. cbv zeta.
  destruct (Cycle.isValid_LPT g); [|exact nonneg_zero].
  destruct (_ >? Cycle.critical_ratio_hot); [apply sqrt_nonneg|].
  destruct (_ >? _); [apply sqrt_nonneg|exact nonneg_zero].
Qed.

Lemma bypass_nozzle_velocity_nonneg (inputs : EngineInputs.t) (g : Cycle.GasPath)
    (v : bool) :
  nonneg_or_nan (Cycle.exit_V (fst (Cycle.bypass_nozzle inputs g v))).
Proof.
  unfold Cycle.bypass_nozzle. cbv zeta.
  destruct v; [|exact nonneg_zero].
  destruct (_ >? Cycle.critical_ratio_cold); [apply sqrt_nonneg|].
  destruct (_ >? _); [apply sqrt_nonneg|exact nonneg_zero].
Qed.

(** X9. The exit velocities that are returned are never negative. *)
Theorem exit_velocities_not_negative (inputs : EngineInputs.t) :
  let perf := CalculationResult.performance (calculateCycle inputs) in
  (PerformanceResult.coreVelocity perf <? 0) = false /\
  (PerformanceResult.bypassVelocity perf <? 0) = false.
Proof.
  intros perf. subst perf. unfold calculateCycle. cbv zeta.
  cbn [CalculationResult.performance PerformanceResult.coreVelocity
       PerformanceResult.bypassVelocity].
  split; apply nonneg_not_below_zero.
  - apply core_nozzle_velocity_nonneg.
  - apply bypass_nozzle_velocity_nonneg.
Qed.

(** The compressor ratio that is returned is below neither the floor 1.1 nor
    the quotient of the overall and the fan pressure ratio. *)
Lemma hpcPressureRatio_not_below (inputs : EngineInputs.t) :
  let hpc := PerformanceResult.hpcPressureRatio
               (CalculationResult.performance (calculateCycle inputs)) in
  (hpc <? 1.1) = false /\
  (hpc <? EngineInputs.overallPressureRatio inputs
          / EngineInputs.fanPressureRatio inputs) = false.
Proof.
  intros hpc.
  assert (E : hpc = Math_max 1.1 (EngineInputs.overallPressureRatio inputs
                                  / EngineInputs.fanPressureRatio inputs))
    by reflexivity.
  rewrite E. split; [apply Math_max_not_below_l|apply Math_max_not_below_r].
Qed.

(** *** The overall efficiency and the clamp *)

Lemma figures_overallEfficiency (inputs : EngineInputs.t) (g : Cycle.GasPath)
    (e9 e19 : Cycle.Exit) (v : bool) :
  Cycle.overallEfficiency (Cycle.figures inputs g e9 e19 v)
  = Cycle.thermalEfficiency (Cycle.figures inputs g e9 e19 v)
    * Cycle.propulsiveEfficiency (Cycle.figures inputs g e9 e19 v).
Proof.
  unfold Cycle.figures. destruct v; reflexivity.
Qed.

(** X10. The overall efficiency that is returned is the product of the thermal
    efficiency and the propulsive efficiency before the clamp; it is the
    product of the two efficiencies that are returned when the clamp does
    not fire. *)
Theorem overallEfficiency_is_product (inputs : EngineInputs.t) :
  let perf := CalculationResult.performance (calculateCycle inputs) in
  PerformanceResult.overallEfficiency perf
  = PerformanceResult.thermalEfficiency perf * before_clamp inputs /\
  ((before_clamp inputs >? 1.0) = false ->
   PerformanceResult.overallEfficiency perf
   = PerformanceResult.thermalEfficiency perf
     * PerformanceResult.propulsiveEfficiency perf).
Proof.
  intros perf.
  assert (E : PerformanceResult.overallEfficiency perf
              = PerformanceResult.thermalEfficiency perf * before_clamp inputs).
  { subst perf. unfold calculateCycle, before_clamp. cbv zeta.
    cbn [CalculationResult.performance PerformanceResult.overallEfficiency
         PerformanceResult.thermalEfficiency].
    apply figures_overallEfficiency. }
  split; [exact E|]. intros H. rewrite E. subst perf.
  rewrite calculateCycle_propulsiveEfficiency.
  unfold Cycle.clamp_propulsive. now rewrite H.
Qed.


(** *** SFC without thrust *)

Lemma Prim2SF_infinity : Prim2SF infinity = S754_infinity false.
Proof. reflexivity. Qed.

(** A positive Number that the clean-up replaces is [+Infinity]. *)
Lemma positive_sanitized_is_infinity (x : float) :
  (x >? 0) = true -> (Cycle.sanitize x >? 0) = false ->
  Prim2SF x = S754_infinity false.
Proof.
  intros Hp Hs. unfold Cycle.sanitize, isNaN, isFinite, is_finite in Hs.
  destruct (ltb_not_nan _ _ Hp) as [_ N]. rewrite N in Hs. cbn [orb] in Hs.
  destruct (is_infinity x) eqn:I; [|cbn [negb] in Hs; congruence].
  unfold is_infinity in I.
  rewrite FloatAxioms.eqb_spec, abs_spec, Prim2SF_infinity in I.
  apply ltb_compare in Hp. rewrite Prim2SF_zero in Hp.
  destruct (Prim2SF x) as [s|s| |s m e]; try destruct s; try discriminate;
    reflexivity.
Qed.

(** A quotient by [+Infinity] is cleaned to a zero. *)
Lemma sanitize_div_infinity (x y : float) :
  Prim2SF y = S754_infinity false -> (Cycle.sanitize (x / y) =? 0) = true.
Proof.
  intros Hy.
  assert (Hq : Prim2SF (x / y) = S754_nan \/ exists s, Prim2SF (x / y) = S754_zero s).
  { rewrite div_spec, Hy. unfold SF64div, SFdiv.
    destruct (Prim2SF x) as [s|s| |s m e]; eauto. }
  unfold Cycle.sanitize, isNaN. destruct Hq as [Hq|[s Hq]].
  - apply is_nan_spec in Hq. rewrite Hq. reflexivity.
  - destruct (is_nan (x / y) || negb (isFinite (x / y))); [reflexivity|].
    rewrite FloatAxioms.eqb_spec, Hq. reflexivity.
Qed.

(** The SFC before the clean-up is 0, or a quotient by a positive thrust. *)
Lemma figures_sfc_cases (inputs : EngineInputs.t) (g : Cycle.GasPath)
    (e9 e19 : Cycle.Exit) (v : bool) :
  let fig := Cycle.figures inputs g e9 e19 v in
  Cycle.sfc fig = 0 \/
  ((Cycle.total_thrust fig >? 0) = true /\
   exists x, Cycle.sfc fig = x / Cycle.total_thrust fig).
Proof.
  unfold Cycle.figures. destruct v; cbv zeta;
    cbn [Cycle.sfc Cycle.total_thrust]; [|now left].
  match goal with |- (if ?c then _ else _) = _ \/ _ => destruct c eqn:E end;
    [right|now left].
  split; [reflexivity|]. eexists. reflexivity.
Qed.

(** X11. Whenever the thrust that is returned is not greater than 0, the SFC that
    is returned compares equal to 0. *)
Theorem sfc_zero_without_thrust (inputs : EngineInputs.t) :
  let perf := CalculationResult.performance (calculateCycle inputs) in
  (PerformanceResult.thrust perf >? 0) = false ->
  (PerformanceResult.sfc perf =? 0) = true.
Proof.
  intros perf. subst perf. unfold calculateCycle. cbv zeta.
  cbn [CalculationResult.performance PerformanceResult.thrust PerformanceResult.sfc].
  match goal with |- context [Cycle.figures ?i ?g ?a ?b ?v] =>
    pose proof (figures_sfc_cases i g a b v) as C; cbv zeta in C;
    generalize dependent (Cycle.figures i g a b v)
  end.
  intros fig [C|[Hp [x C]]] Hs; rewrite C.
  - reflexivity.
  - apply sanitize_div_infinity. now apply positive_sanitized_is_infinity.
Qed.

(** *** The inlet helper and the solver *)

Lemma gas_path_inlet (inputs : EngineInputs.t) :
  getInletConditions (EngineInputs.altitude inputs) (EngineInputs.mach inputs)
    (EngineInputs.pressureRecoveryInlet inputs)
  = {| inlet_Tt2 := Cycle.Tt2 (Cycle.gas_path inputs);
       inlet_Pt2 := Cycle.Pt2 (Cycle.gas_path inputs) |}.
Proof. reflexivity. Qed.

(** X12. [getInletConditions] at the altitude, Mach number and inlet recovery of
    an input gives the temperature and pressure that [calculateCycle]
    returns at station 2 for it. *)
Theorem getInletConditions_is_station_2 (inputs : EngineInputs.t) :
  let ic := getInletConditions (EngineInputs.altitude inputs)
              (EngineInputs.mach inputs)
              (EngineInputs.pressureRecoveryInlet inputs) in
  nth_error (station_values (calculateCycle inputs)) 1
  = Some ("2"%string, ic.(inlet_Tt2), ic.(inlet_Pt2)).
Proof.
  intros ic. subst ic. rewrite gas_path_inlet. reflexivity.
Qed.

(** *** SFC along the trends *)

(** A positive product with a positive first factor has a second factor
    that is not negative. *)
Lemma mul_pos_factor (a b : float) :
  (a >? 0) = true -> (a * b >? 0) = true -> nonneg_or_nan b.
Proof.
  rewrite !ltb_compare, mul_spec, Prim2SF_zero.
  unfold nonneg_or_nan, SF64mul, SFmul.
  destruct (Prim2SF a) as [sa|sa| |sa ma ea], (Prim2SF b) as [sb|sb| |sb mb eb];
    try destruct sa; try destruct sb; cbn [xorb]; intros Ha Hb;
    try discriminate; auto.
  pose proof (binary_round_aux_sign true (Zpos (ma * mb)) (ea + eb) loc_Exact) as H.
  destruct (binary_round_aux _ _ _ _ _ _) as [s|s| |s m e]; subst;
    discriminate Hb.
Qed.

Lemma sanitize_positive (x : float) :
  (Cycle.sanitize x >? 0) = true -> (x >? 0) = true.
Proof.
  unfold Cycle.sanitize. destruct (_ || _); [discriminate|auto].
Qed.

Lemma figures_sfc_nonneg_with_thrust (inputs : EngineInputs.t) (g : Cycle.GasPath)
    (e9 e19 : Cycle.Exit) (v : bool) :
  (EngineInputs.bypassRatio inputs >=? 0) = true ->
  nonneg_or_nan (Cycle.f g) ->
  (Cycle.specific_thrust (Cycle.figures inputs g e9 e19 v) >? 0) = true ->
  nonneg_or_nan (Cycle.sfc (Cycle.figures inputs g e9 e19 v)).
Proof.
  intros Hb Hf. unfold Cycle.figures.
  destruct v; cbv zeta; cbn [Cycle.sfc Cycle.specific_thrust];
    [|intros _; exact nonneg_zero].
  intros Hs.
  match goal with |- nonneg_or_nan (if ?c then _ else _) => destruct c eqn:E end;
    [|exact nonneg_zero].
  apply div_nonneg; [|exact (ltb_zero_unsigned _ E)].
  apply mul_nonneg; [|now apply leb_zero_nonneg].
  apply mul_nonneg; [exact Hf|].
  apply div_nonneg.
  - exact (mul_pos_factor _ _ Hs E).
  - now apply one_plus_unsigned, leb_zero_nonneg.
Qed.

(** With a bypass ratio that is not negative, a result of positive specific
    thrust has an SFC that is not negative, whatever the sign of the mass
    flow. *)
Lemma sfc_nonneg_with_thrust (inputs : EngineInputs.t) :
  (EngineInputs.bypassRatio inputs >=? 0) = true ->
  (PerformanceResult.specificThrust
     (CalculationResult.performance (calculateCycle inputs)) >? 0) = true ->
  (PerformanceResult.sfc (CalculationResult.performance (calculateCycle inputs))
   >=? 0) = true.
Proof.
  intros Hb. unfold calculateCycle. cbv zeta.
  cbn [CalculationResult.performance PerformanceResult.sfc
       PerformanceResult.specificThrust].
  intros Hs. apply sanitize_positive in Hs.
  apply sanitize_nonneg, figures_sfc_nonneg_with_thrust;
    auto using gas_path_f_nonneg.
Qed.

End MoreCycleFacts.

(** ** Signs along the trends *)
Section TrendSigns.
Context {M : Math}.

Lemma calculateTrends_is_sweep (baseInputs : EngineInputs.t) :
  calculateTrends baseInputs = Some (flat_map (trend_sample baseInputs) opr_sweep).
Proof.
  unfold calculateTrends, calculateTrends_fuel.
  now rewrite calculateTrends_loop_spec, count_up_opr_sweep.
Qed.

(** X13. Every point of the bypass trend has an SFC that is not negative and a
    positive specific thrust, whatever the base inputs. *)
Theorem bypass_trend_sfc_not_negative (baseInputs : EngineInputs.t) :
  exists points : list BypassTrendPoint.t,
    calculateBypassTrends baseInputs = Some points /\
    forall p, In p points ->
      (BypassTrendPoint.sfc p >=? 0) = true /\
      (BypassTrendPoint.specificThrust p >? 0) = true.
Proof.
  exists (flat_map (bypass_sample baseInputs) bpr_sweep).
  split; [apply calculateBypassTrends_is_sweep|].
  intros p Hp. apply in_flat_map in Hp. destruct Hp as [x [Hx Hp]].
  apply bypass_sample_In in Hp. cbv zeta in Hp.
  destruct Hp as [_ [_ [Ht [-> ->]]]].
  split; [|exact Ht].
  apply sfc_nonneg_with_thrust; [|exact Ht].
  cbn [EngineInputs.with_bypassRatio EngineInputs.bypassRatio].
  pose proof bpr_sweep_bounds as B. rewrite forallb_forall in B.
  specialize (B x Hx). apply andb_prop in B. destruct B as [B _].
  apply andb_prop in B. destruct B as [B _].
  apply (leb_trans 0 0.2 x); [reflexivity|exact B].
Qed.

(** X14. With a base bypass ratio that is not negative, every point of the trend
    over the overall pressure ratio and of the fan trend has an SFC that is
    not negative and a positive specific thrust. *)
Theorem trends_sfc_not_negative (baseInputs : EngineInputs.t) :
  (EngineInputs.bypassRatio baseInputs >=? 0) = true ->
  (exists points : list ChartPoint.t,
     calculateTrends baseInputs = Some points /\
     forall p, In p points ->
       (ChartPoint.sfc p >=? 0) = true /\
       (ChartPoint.specificThrust p >? 0) = true) /\
  (exists points : list FanTrendPoint.t,
     calculateFanTrends baseInputs = Some points /\
     forall p, In p points ->
       (FanTrendPoint.sfc p >=? 0) = true /\
       (FanTrendPoint.specificThrust p >? 0) = true).
Proof.
  intros Hb. split.
  - exists (flat_map (trend_sample baseInputs) opr_sweep).
    split; [apply calculateTrends_is_sweep|].
    intros p Hp. apply in_flat_map in Hp. destruct Hp as [x [Hx Hp]].
    apply trend_sample_In in Hp. cbv zeta in Hp.
    destruct Hp as [_ [_ [_ [Ht [-> ->]]]]].
    split; [|exact Ht].
    apply sfc_nonneg_with_thrust; [exact Hb|exact Ht].
  - exists (flat_map (fan_sample baseInputs) fpr_sweep).
    split; [apply calculateFanTrends_is_sweep|].
    intros p Hp. apply in_flat_map in Hp. destruct Hp as [x [Hx Hp]].
    apply fan_sample_In in Hp. cbv zeta in Hp.
    destruct Hp as [_ [_ [_ [Ht [-> ->]]]]].
    split; [|exact Ht].
    apply sfc_nonneg_with_thrust; [exact Hb|exact Ht].
Qed.

End TrendSigns.

(** ** What the sweeps and the clean-up leave out *)
Section SweepInvariance.
Context {M : Math}.

Lemma sanitize_finite (x : float) : isFinite (Cycle.sanitize x) = true.
Proof.
  unfold Cycle.sanitize. destruct (isNaN x || negb (isFinite x)) eqn:E.
  - reflexivity.
  - apply orb_false_elim in E. destruct E as [_ E].
    now apply negb_false_iff in E.
Qed.

(** X15. The thrust, the specific thrust and the SFC that are returned are
    finite Numbers for every input: never NaN, never an infinity.  The
    efficiencies are not cleaned and may be NaN. *)
Theorem headline_figures_are_finite (inputs : EngineInputs.t) :
  let perf := CalculationResult.performance (calculateCycle inputs) in
  isFinite (PerformanceResult.thrust perf) = true /\
  isFinite (PerformanceResult.specificThrust perf) = true /\
  isFinite (PerformanceResult.sfc perf) = true.
Proof.
  intros perf. subst perf. unfold calculateCycle. cbv zeta.
  cbn [CalculationResult.performance PerformanceResult.thrust
       PerformanceResult.specificThrust PerformanceResult.sfc].
  repeat split; apply sanitize_finite.
Qed.

Lemma with_overallPressureRatio_twice (i : EngineInputs.t) (v x : float) :
  EngineInputs.with_overallPressureRatio (EngineInputs.with_overallPressureRatio i v) x
  = EngineInputs.with_overallPressureRatio i x.
Proof. reflexivity. Qed.

Lemma with_fanPressureRatio_twice (i : EngineInputs.t) (v x : float) :
  EngineInputs.with_fanPressureRatio (EngineInputs.with_fanPressureRatio i v) x
  = EngineInputs.with_fanPressureRatio i x.
Proof. reflexivity. Qed.

Lemma with_bypassRatio_twice (i : EngineInputs.t) (v x : float) :
  EngineInputs.with_bypassRatio (EngineInputs.with_bypassRatio i v) x
  = EngineInputs.with_bypassRatio i x.
Proof. reflexivity. Qed.

Lemma with_flight_twice (i : EngineInputs.t) (h m mf h' m' mf' : float) :
  EngineInputs.with_flight (EngineInputs.with_flight i h m mf) h' m' mf'
  = EngineInputs.with_flight i h' m' mf'.
Proof. reflexivity. Qed.

Lemma trend_sample_ignores (baseInputs : EngineInputs.t) (v x : float) :
  trend_sample (EngineInputs.with_overallPressureRatio baseInputs v) x
  = trend_sample baseInputs x.
Proof.
  unfold trend_sample. rewrite with_overallPressureRatio_twice.
  change (EngineInputs.fanPressureRatio
            (EngineInputs.with_overallPressureRatio baseInputs v))
    with (EngineInputs.fanPressureRatio baseInputs).
  reflexivity.
Qed.

Lemma fan_sample_ignores (baseInputs : EngineInputs.t) (v x : float) :
  fan_sample (EngineInputs.with_fanPressureRatio baseInputs v) x
  = fan_sample baseInputs x.
Proof.
  unfold fan_sample. rewrite with_fanPressureRatio_twice.
  change (EngineInputs.overallPressureRatio
            (EngineInputs.with_fanPressureRatio baseInputs v))
    with (EngineInputs.overallPressureRatio baseInputs).
  reflexivity.
Qed.

Lemma bypass_sample_ignores (baseInputs : EngineInputs.t) (v x : float) :
  bypass_sample (EngineInputs.with_bypassRatio baseInputs v) x
  = bypass_sample baseInputs x.
Proof.
  unfold bypass_sample. rewrite with_bypassRatio_twice. reflexivity.
Qed.

Lemma envelope_cell_ignores (baseInputs : EngineInputs.t) (h m x y : float) :
  envelope_cell
    (EngineInputs.with_flight baseInputs h m (EngineInputs.massFlow baseInputs)) x y
  = envelope_cell baseInputs x y.
Proof.
  unfold envelope_cell. rewrite !with_flight_twice.
  change (EngineInputs.massFlow
            (EngineInputs.with_flight baseInputs h m (EngineInputs.massFlow baseInputs)))
    with (EngineInputs.massFlow baseInputs).
  reflexivity.
Qed.

(** X16. Each sweep overwrites the input it sweeps, so its result does not
    depend on the base value of that input: the trend over the overall
    pressure ratio ignores the base overall pressure ratio, the fan trend
    the base fan pressure ratio, the bypass trend the base bypass ratio, and
    the envelope the base altitude and Mach number. *)
Theorem sweeps_ignore_the_swept_input (baseInputs : EngineInputs.t) (v h m : float) :
  calculateTrends (EngineInputs.with_overallPressureRatio baseInputs v)
  = calculateTrends baseInputs /\
  calculateFanTrends (EngineInputs.with_fanPressureRatio baseInputs v)
  = calculateFanTrends baseInputs /\
  calculateBypassTrends (EngineInputs.with_bypassRatio baseInputs v)
  = calculateBypassTrends baseInputs /\
  calculateEnvelope
    (EngineInputs.with_flight baseInputs h m (EngineInputs.massFlow baseInputs))
  = calculateEnvelope baseInputs.
Proof.
  split; [|split; [|split]].
  - rewrite !calculateTrends_is_sweep. apply (f_equal (@Some _)).
    apply flat_map_ext. intros x. apply trend_sample_ignores.
  - rewrite !calculateFanTrends_is_sweep. apply (f_equal (@Some _)).
    apply flat_map_ext. intros x. apply fan_sample_ignores.
  - rewrite !calculateBypassTrends_is_sweep. apply (f_equal (@Some _)).
    apply flat_map_ext. intros x. apply bypass_sample_ignores.
  - rewrite !calculateEnvelope_is_grid. apply (f_equal (@Some _)).
    unfold envelope_grid. apply flat_map_ext. intros x.
    apply flat_map_ext. intros y. apply envelope_cell_ignores.
Qed.

End SweepInvariance.

(** ** The marker of the trend charts *)
Section MarkerFacts.
Context {P : Type} (xKey : P -> float) (currentVal : float).

Import PerformanceCharts.

Local Abbreviation dist := (marker_distance xKey currentVal).

(** What the [reduce] keeps, from any accumulator: the result is the
    accumulator or a point it visited, nothing it saw is strictly closer,
    an accumulator at a NaN distance is never replaced, and one at a
    distance that is a number leaves a result at such a distance. *)
Lemma fold_closer_spec (l : list P) (acc : option P) :
  let r := fold_left (closer xKey currentVal) l acc in
  (r = acc \/ exists p, r = Some p /\ In p l) /\
  (dist acc <? dist r) = false /\
  (forall q, In q l -> (dist (Some q) <? dist r) = false) /\
  (is_nan (dist acc) = true -> r = acc) /\
  (is_nan (dist acc) = false -> is_nan (dist r) = false).
Proof.
  cbv zeta. revert acc. induction l as [|x l IH]; intros acc.
  - cbn [fold_left]. repeat split; auto using ltb_irrefl.
    intros q [].
  - cbn [fold_left].
    assert (C : ((dist (Some x) <? dist acc) = true /\
                 closer xKey currentVal acc x = Some x) \/
                ((dist (Some x) <? dist acc) = false /\
                 closer xKey currentVal acc x = acc)).
    { unfold closer, marker_distance. cbn [key_of]. destruct (_ <? _); auto. }
    destruct C as [[E ->]|[E ->]];
      [destruct (IH (Some x)) as [I1 [I2 [I3 [I4 I5]]]]
      |destruct (IH acc) as [I1 [I2 [I3 [I4 I5]]]]];
      revert I1 I2 I3 I4 I5;
      [generalize (fold_left (closer xKey currentVal) l (Some x))
      |generalize (fold_left (closer xKey currentVal) l acc)];
      intros r I1 I2 I3 I4 I5.
    + destruct (ltb_not_nan _ _ E) as [Nx Na].
      split; [|split; [|split; [|split]]].
      * right. destruct I1 as [->|[p [-> Hp]]].
        -- exists x. split; [reflexivity|now left].
        -- exists p. split; [reflexivity|now right].
      * destruct (dist acc <? dist r) eqn:F; [|reflexivity].
        now rewrite (ltb_trans _ _ _ E F) in I2.
      * intros q [<-|Hq]; auto.
      * congruence.
      * auto.
    + split; [|split; [|split; [|split]]].
      * destruct I1 as [->|[p [-> Hp]]]; [now left|right; exists p].
        split; [reflexivity|now right].
      * exact I2.
      * intros q [<-|Hq]; auto.
        destruct (is_nan (dist acc)) eqn:Na.
        -- now rewrite (I4 eq_refl).
        -- specialize (I5 eq_refl).
           destruct (dist (Some x) <? dist r) eqn:F; [|reflexivity].
           destruct (ltb_not_nan _ _ F) as [Nx Nr].
           apply ltb_false_cases in E. apply ltb_false_cases in I2.
           destruct E as [E|[E|E]]; try congruence.
           destruct I2 as [I2|[I2|I2]]; try congruence.
           pose proof (leb_trans _ _ _ I2 E) as L.
           now rewrite (ltb_leb_false _ _ F) in L.
      * exact I4.
      * exact I5.
Qed.

(** X17. Without data there is no point to mark and no marker.  With data, the
    point picked is one of the data and no point of the data is strictly
    closer to the current value; this holds whatever the values, NaN
    included. *)
Theorem closestPoint_is_closest (chartType : ChartType) (d0 : P) (rest : list P) :
  closestPoint xKey [] currentVal = None /\
  showDots xKey chartType [] currentVal = false /\
  exists p : P,
    closestPoint xKey (d0 :: rest) currentVal = Some p /\
    In p (d0 :: rest) /\
    forall q, In q (d0 :: rest) ->
      (Math_abs (xKey q - currentVal) <? Math_abs (xKey p - currentVal)) = false.
Proof.
  split; [reflexivity|]. split; [reflexivity|].
  unfold closestPoint. cbn [hd_error].
  destruct (fold_closer_spec (d0 :: rest) (Some d0)) as [I1 [_ [I3 _]]].
  revert I1 I3.
  generalize (fold_left (closer xKey currentVal) (d0 :: rest) (Some d0)).
  intros r [->|[p [-> Hp]]] I3.
  - exists d0. split; [reflexivity|]. split; [now left|exact I3].
  - exists p. split; [reflexivity|]. split; [exact Hp|exact I3].
Qed.


End MarkerFacts.

(** ** Further runs on concrete inputs *)

(** With the base fan pressure ratio at 60 the trend over the overall
    pressure ratio is empty. *)
Lemma calculateTrends_empty_at_fan_ratio_60 :
  (EngineInputs.fanPressureRatio (EngineInputs.with_fanPressureRatio reference_cruise 60)
   >=? 60) = true /\
  calculateTrends (M:=RefMath.ref) (EngineInputs.with_fanPressureRatio reference_cruise 60)
  = Some [].
Proof.
  split; [reflexivity|].
  apply (@calculateTrends_empty RefMath.ref
           (EngineInputs.with_fanPressureRatio reference_cruise 60)).
  reflexivity.
Defined.

(** With the base overall pressure ratio at 1.1 the fan trend is empty. *)
Lemma calculateFanTrends_empty_at_ratio_1_1 :
  (EngineInputs.overallPressureRatio
     (EngineInputs.with_overallPressureRatio reference_cruise 1.1) <=? 1.1) = true /\
  calculateFanTrends (M:=RefMath.ref)
    (EngineInputs.with_overallPressureRatio reference_cruise 1.1)
  = Some [].
Proof.
  split; [reflexivity|].
  apply (@calculateFanTrends_empty RefMath.ref
           (EngineInputs.with_overallPressureRatio reference_cruise 1.1)).
  reflexivity.
Defined.

(** At [starved_turbines] both turbine stages fail their test: the total
    pressure of the burner exit is carried to stations 4.5 and 5, and the
    cycle is invalid. *)
Lemma starved_turbines_hold_pressure :
  let g := Cycle.gas_path (M:=RefMath.ref) starved_turbines in
  let valid := PerformanceResult.isValid
                 (CalculationResult.performance
                    (calculateCycle (M:=RefMath.ref) starved_turbines)) in
  (hpt_infeasible starved_turbines g = true /\ lpt_infeasible starved_turbines g = true) /\
  (Cycle.Pt45 g = Cycle.Pt4 g /\ valid = false) /\
  (Cycle.Pt5 g = Cycle.Pt45 g /\ valid = false).
Proof.
  cbv zeta.
  destruct (@infeasible_turbine_holds_pressure RefMath.ref starved_turbines) as [H L].
  cbv zeta in H, L.
  split; [split; vm_compute; reflexivity|].
  split; [apply H|apply L]; vm_compute; reflexivity.
Defined.

(** At [cold_turbine] the cycle is invalid and its result is the
    degenerate one. *)
Lemma cold_turbine_is_degenerate :
  let res := calculateCycle (M:=RefMath.ref) cold_turbine in
  let perf := CalculationResult.performance res in
  PerformanceResult.isValid perf = false /\
  PerformanceResult.thermalEfficiency perf = 0 /\
  PerformanceResult.propulsiveEfficiency perf = 0 /\
  PerformanceResult.overallEfficiency perf = 0 /\
  PerformanceResult.coreVelocity perf = 0 /\
  PerformanceResult.bypassVelocity perf = 0 /\
  exists T0 P0 Tt2 Pt2 Tt13 Pt13 Tt3 Pt3 Tt4 Pt4 Tt45 Pt45 Tt5 Pt5 : float,
    station_values res
    = [ ("0", T0, P0); ("2", Tt2, Pt2); ("2.5", Tt13, Pt13); ("3", Tt3, Pt3);
        ("4", Tt4, Pt4); ("4.5", Tt45, Pt45); ("5", Tt5, Pt5);
        ("9", Tt5, P0); ("19", Tt13, P0) ]%string.
Proof.
  cbv zeta. split; [vm_compute; reflexivity|].
  apply (@invalid_cycle_is_degenerate RefMath.ref cold_turbine).
  vm_compute. reflexivity.
Defined.

(** At [reference_cruise] the clamp does not fire and the overall
    efficiency is the product of the two efficiencies that are returned. *)
Lemma overallEfficiency_at_reference_cruise :
  let perf := CalculationResult.performance
                (calculateCycle (M:=RefMath.ref) reference_cruise) in
  (before_clamp (M:=RefMath.ref) reference_cruise >? 1.0) = false /\
  PerformanceResult.overallEfficiency perf
  = PerformanceResult.thermalEfficiency perf
    * PerformanceResult.propulsiveEfficiency perf.
Proof.
  cbv zeta.
  destruct (@overallEfficiency_is_product RefMath.ref reference_cruise) as [_ H].
  cbv zeta in H.
  split; [vm_compute; reflexivity|]. apply H. vm_compute. reflexivity.
Defined.

(** At [clamped_dash] the clamp fires: the propulsive efficiency returned is
    0.999, and the overall efficiency is above the product of the two
    efficiencies that are returned. *)
Example clamped_dash_overallEfficiency :
  let perf := CalculationResult.performance
                (calculateCycle (M:=RefMath.ref) clamped_dash) in
  PerformanceResult.isValid perf = true /\
  (before_clamp (M:=RefMath.ref) clamped_dash >? 1.0) = true /\
  PerformanceResult.propulsiveEfficiency perf = 0.999 /\
  (PerformanceResult.overallEfficiency perf
   >? PerformanceResult.thermalEfficiency perf
      * PerformanceResult.propulsiveEfficiency perf) = true.
Proof. vm_compute. repeat split. Qed.

(** At [sea_level_mach_2_2] the thrust is negative and the SFC is 0. *)
Lemma sfc_zero_at_sea_level_mach_2_2 :
  let perf := CalculationResult.performance
                (calculateCycle (M:=RefMath.ref) sea_level_mach_2_2) in
  (PerformanceResult.thrust perf >? 0) = false /\
  (PerformanceResult.sfc perf =? 0) = true.
Proof.
  cbv zeta. split; [vm_compute; reflexivity|].
  apply (@sfc_zero_without_thrust RefMath.ref sea_level_mach_2_2).
  vm_compute. reflexivity.
Defined.

(** The trends of [reference_cruise], whose bypass ratio is 9. *)
Lemma trends_sfc_at_reference_cruise :
  (EngineInputs.bypassRatio reference_cruise >=? 0) = true /\
  (exists points : list ChartPoint.t,
     calculateTrends (M:=RefMath.ref) reference_cruise = Some points /\
     forall p, In p points ->
       (ChartPoint.sfc p >=? 0) = true /\
       (ChartPoint.specificThrust p >? 0) = true) /\
  (exists points : list FanTrendPoint.t,
     calculateFanTrends (M:=RefMath.ref) reference_cruise = Some points /\
     forall p, In p points ->
       (FanTrendPoint.sfc p >=? 0) = true /\
       (FanTrendPoint.specificThrust p >? 0) = true).
Proof.
  split; [reflexivity|].
  apply (@trends_sfc_not_negative RefMath.ref reference_cruise). reflexivity.
Defined.

(** The trends of [reference_cruise] have points: 51 over the overall
    pressure ratio, 12 over the fan pressure ratio (the fan ratios above
    2.2 give no valid cycle) and 149 over the bypass ratio. *)
Example reference_cruise_trend_lengths :
  option_map (@List.length _) (calculateTrends (M:=RefMath.ref) reference_cruise)
  = Some 51%nat /\
  option_map (@List.length _) (calculateFanTrends (M:=RefMath.ref) reference_cruise)
  = Some 12%nat /\
  option_map (@List.length _) (calculateBypassTrends (M:=RefMath.ref) reference_cruise)
  = Some 149%nat.
Proof. vm_compute. repeat split. Qed.

(** On [two_points] with the current value 10.8 the point at 11 is picked
    and shown; with the current value 12 it is picked and not shown; with a
    current value that is NaN the first point stays picked and nothing is
    shown. *)
Example two_points_marker :
  option_map ChartPoint.opr
    (PerformanceCharts.closestPoint ChartPoint.opr two_points 10.8) = Some 11 /\
  PerformanceCharts.showDots ChartPoint.opr PerformanceCharts.opr two_points 10.8 = true /\
  option_map ChartPoint.opr
    (PerformanceCharts.closestPoint ChartPoint.opr two_points 12) = Some 11 /\
  PerformanceCharts.showDots ChartPoint.opr PerformanceCharts.opr two_points 12 = false /\
  PerformanceCharts.showDots ChartPoint.opr PerformanceCharts.bpr two_points 11.9 = true /\
  option_map ChartPoint.opr
    (PerformanceCharts.closestPoint ChartPoint.opr two_points nan) = Some 10 /\
  PerformanceCharts.showDots ChartPoint.opr PerformanceCharts.opr two_points nan = false.
Proof. vm_compute. repeat split. Qed.

